(** * dashboard.py: payload builder and delivery worker

    A shallow embedding of [src/dashboard.py].  The module builds a
    transmission payload from a detection event ([accumulate_event], with
    [prepare_image] for the picture), hands it to a FIFO queue, and a worker
    ([push_event]) posts every queued payload to the dashboard until it
    dequeues the sentinel [None].

    Python code that logs, writes files, mutates the queue and raises is
    embedded in a state-and-exception monad over a [world] record.  A raised
    exception keeps the state changes made before it, as in Python.  The
    third-party libraries (cv2, base64, json, BeautifulSoup, requests) are
    interfaces: their functions are fields of type classes, or data carried
    by the session object. *)

From Stdlib Require Import ZArith Lia String Ascii.
From stdpp Require Import base list strings gmap pretty.

Local Open Scope Z_scope.

(** ** Python values *)

(** The values that flow through dictionaries, JSON documents and log
    messages of this module.  No function below recurses on them, so the
    induction schemes are not generated. *)
#[local] Unset Elimination Schemes.
Inductive py_value :=
  | PyNone
  | PyBool (b : bool)
  | PyInt (z : Z)
  | PyStr (s : string)
  | PyList (l : list py_value)
  | PyDict (items : list (string * py_value)).
#[local] Set Elimination Schemes.

(** ** Exceptions *)

(** The subclasses of [requests.exceptions.RequestException] the worker can
    meet.  [JSONDecodeError] is the one [Response.json] raises for a body
    that is not JSON.  It derives from [json.JSONDecodeError], unless
    simplejson is importable: requests then derives it from simplejson's
    class.  The flag tells whether it derives from the class of the standard
    library. *)
Inductive request_exception :=
  | ConnectionError
  | Timeout
  | TooManyRedirects
  | MissingSchema
  | HTTPError
  | JSONDecodeError (stdlib : bool).

Inductive exn_class :=
  | ValueError
  | OSError
  | BinasciiError
  | Cv2Error
  | RecursionError
  | RequestException (k : request_exception).

Record exn := mk_exn { exn_class_of : exn_class; exn_msg : string }.

(** [isinstance(e, requests.exceptions.RequestException)] *)
Definition isinstance_RequestException (e : exn) : bool :=
  match exn_class_of e with
  | RequestException _ => true
  | _ => false
  end.

(** [isinstance(e, json.JSONDecodeError)] *)
Definition isinstance_JSONDecodeError (e : exn) : bool :=
  match exn_class_of e with
  | RequestException (JSONDecodeError stdlib) => stdlib
  | _ => false
  end.

(** [isinstance(e, Exception)]: every class above derives from it. *)
Definition isinstance_Exception (e : exn) : bool := true.

Inductive result (A : Type) :=
  | Ok (a : A)
  | Raise (e : exn).
Arguments Ok {A} a.
Arguments Raise {A} e.

(** ** Payloads *)

Module Detection.
(** One entry of the payload's ["detections"] list. *)
Record t := mk { type : Z; details : string }.

Definition to_value (d : t) : py_value :=
  PyDict [("type", PyInt (type d)); ("details", PyStr (details d))].
End Detection.

Module Payload.
(** The dictionary [accumulate_event] builds, keys in insertion order. *)
Record t := mk {
  location_id : Z;
  date : string;
  type : Z;
  detections : list Detection.t;
  image : string;
}.

(** [payload.items()] *)
Definition items (p : t) : list (string * py_value) :=
  [ ("location_id", PyInt (location_id p));
    ("date", PyStr (date p));
    ("type", PyInt (type p));
    ("detections", PyList (map Detection.to_value (detections p)));
    ("image", PyStr (image p)) ].
End Payload.

(** ** HTTP *)

Record request := mk_request {
  req_method : string;
  req_url : string;
  req_headers : list (string * string);
  req_json : Payload.t;
}.

Record response := mk_response {
  status_code : Z;
  reason : string;
  url : string;
  text : string;
}.

(** What [session.post] does with one request: it returns a response, it
    raises a [RequestException] (requests wraps every transport failure in
    one), or it never returns: the call is given no timeout. *)
Inductive http_outcome :=
  | Responded (r : response)
  | Failed (k : request_exception) (msg : string)
  | NoAnswer.

(** The session object handed to [push_event].  The outcome of a request
    may depend on how many requests the process issued before it. *)
Record Session := mk_session {
  post : nat -> request -> http_outcome;
}.

(** ** Logging *)

Inductive level := DEBUG | INFO | WARNING | ERROR.

Definition levelno (l : level) : Z :=
  match l with
  | DEBUG => 10
  | INFO => 20
  | WARNING => 30
  | ERROR => 40
  end.

(** The pieces of an f-string: literal text and formatted values. *)
Inductive fragment :=
  | Lit (s : string)
  | FmtStr (s : string)
  | FmtInt (z : Z)
  | FmtExn (e : exn)
  | FmtValue (v : py_value).

Record log_record := mk_log { log_level : level; log_msg : list fragment }.

(** ** The world *)

(** What the module reads and mutates: the local clock, the records the
    logger emitted, the files of the working directory with the faults the
    disk answers with, the queue shared by producer and worker, and the
    requests issued so far.

    [open_fault] is the [OSError] of opening a path for writing.
    [write_fault] is the [OSError] of writing text to it; [fault_at_close]
    tells whether that error surfaces in [file.write] or, for text that
    stays in the buffer, only when the file is closed, and [fault_offset]
    how many characters of the text reached the file. *)
Record world := mk_world {
  clock : string;
  log : list log_record;
  files : gmap string string;
  open_fault : string -> option exn;
  write_fault : string -> option exn;
  fault_at_close : string -> bool;
  fault_offset : string -> nat;
  queue : list (option Payload.t);
  sent : list request;
}.

Definition set_log (f : list log_record -> list log_record) (w : world) : world :=
  mk_world (clock w) (f (log w)) (files w) (open_fault w) (write_fault w)
           (fault_at_close w) (fault_offset w) (queue w) (sent w).

Definition set_files (f : gmap string string -> gmap string string) (w : world) : world :=
  mk_world (clock w) (log w) (f (files w)) (open_fault w) (write_fault w)
           (fault_at_close w) (fault_offset w) (queue w) (sent w).

Definition set_queue (f : list (option Payload.t) -> list (option Payload.t))
    (w : world) : world :=
  mk_world (clock w) (log w) (files w) (open_fault w) (write_fault w)
           (fault_at_close w) (fault_offset w) (f (queue w)) (sent w).

Definition set_sent (f : list request -> list request) (w : world) : world :=
  mk_world (clock w) (log w) (files w) (open_fault w) (write_fault w)
           (fault_at_close w) (fault_offset w) (queue w) (f (sent w)).

(** ** The monad *)

Definition M (A : Type) : Type := world -> result A * world.

Definition ret {A} (a : A) : M A := fun w => (Ok a, w).

Definition bind {A B} (m : M A) (k : A -> M B) : M B :=
  fun w =>
    match m w with
    | (Ok a, w') => k a w'
    | (Raise e, w') => (Raise e, w')
    end.

Definition raise {A} (e : exn) : M A := fun w => (Raise e, w).

(** [try: body except <class> as e: handler]; [catches] is the
    [isinstance] test of the except clause. *)
Definition try_except {A} (body : M A) (catches : exn -> bool)
    (handler : exn -> M A) : M A :=
  fun w =>
    match body w with
    | (Ok a, w') => (Ok a, w')
    | (Raise e, w') => if catches e then handler e w' else (Raise e, w')
    end.

(** A library call that touches no state. *)
Definition lift {A} (r : result A) : M A := fun w => (r, w).

(** The monad operations are registered with stdpp's classes, which gives
    the notations [x ← m; k] and [m;; k]. *)
#[global] Instance M_ret : MRet M := @ret.
#[global] Instance M_bind : MBind M := fun A B k m => bind m k.

(** ** Calls that may never return *)

(** The worker calls [session.post] without a timeout.  Its code runs in a
    second monad, where a computation returns, raises, or never returns:
    [None] stands for the call that hangs. *)
Definition W (A : Type) : Type := world -> option (result A) * world.

#[global] Instance W_ret : MRet W := fun A a w => (Some (Ok a), w).

#[global] Instance W_bind : MBind W :=
  fun A B k m w =>
    match m w with
    | (Some (Ok a), w') => k a w'
    | (Some (Raise e), w') => (Some (Raise e), w')
    | (None, w') => (None, w')
    end.

(** Code that always returns or raises, run in the worker's monad. *)
Definition returns {A} (m : M A) : W A :=
  fun w => (Some (fst (m w)), snd (m w)).

(** [try: body except <class> as e: handler] in the worker's monad; a body
    that never returns never reaches the handler. *)
Definition try_except_W {A} (body : W A) (catches : exn -> bool)
    (handler : exn -> W A) : W A :=
  fun w =>
    match body w with
    | (Some (Raise e), w') =>
        if catches e then handler e w' else (Some (Raise e), w')
    | (r, w') => (r, w')
    end.

(** ** The logger *)

(** [logging.basicConfig(level=logging.INFO)] *)
Definition logger_level : Z := levelno INFO.

Definition logger_log (l : level) (msg : list fragment) : M unit :=
  fun w =>
    if logger_level <=? levelno l
    then (Ok tt, set_log (fun rs => rs ++ [mk_log l msg]) w)
    else (Ok tt, w).

Definition logger_debug := logger_log DEBUG.
Definition logger_info := logger_log INFO.
Definition logger_warning := logger_log WARNING.
Definition logger_error := logger_log ERROR.

(** ** Module constants *)

Definition TOKEN : string := "TOKEN".
Definition DASHBOARD_LINK : string := "DASHBOARD_LINK".

(** [detection_types_mapping_dict.get(detection)] *)
Definition detection_types_mapping_dict (detection : string) : option Z :=
  if decide (detection = "No_Gloves") then Some 0
  else if decide (detection = "No_Sleeves") then Some 1
  else if decide (detection = "No_Helmet") then Some 2
  else None.

(** ** Library interfaces *)

(** OpenCV and base64, as [prepare_image] uses them.  [cv2_imencode] returns
    the pair [(success, buffer)] or raises [cv2.error]; [b64decode] is
    [base64.b64decode(s, validate=True)], which raises [binascii.Error] on
    text that is not Base64. *)
Class ImageLibs := {
  Frame : Type;
  cv2_resize : Frame -> Z * Z -> result Frame;
  cv2_imencode : string -> Frame -> list Z -> result (bool * list Z);
  b64encode : list Z -> string;
  b64decode : string -> result (list Z);
}.

Definition IMWRITE_PNG_COMPRESSION : Z := 16.

(** The json decoder behind [Response.json], and BeautifulSoup, as
    [parse_json_or_html] uses them.  [json_loads] is what [response.json()]
    does with a body: it returns the parsed document, or raises: requests'
    [JSONDecodeError] for text that is not JSON, and whatever else the
    decoder lets through, such as [RecursionError] for deeply nested text.
    [soup_title] is the first title element, [tag_string] its [.string]
    ([None] when the element has no single string child). *)
Class MarkupLibs := {
  json_loads : string -> result py_value;
  Soup : Type;
  Tag : Type;
  BeautifulSoup : string -> string -> Soup;
  soup_title : Soup -> option Tag;
  tag_string : Tag -> option string;
  prettify : Soup -> string;
}.

(** Iteration over [set(l)]: every distinct element once, in an order the
    interpreter chooses. *)
Class SetIteration := {
  set_iter : list string -> list string;
  set_iter_NoDup : forall l, NoDup (set_iter l);
  set_iter_elem : forall l x, x ∈ set_iter l <-> x ∈ l;
}.

(** ** String methods *)

Definition map_string (f : ascii -> ascii) : string -> string :=
  fix go (s : string) : string :=
    match s with
    | EmptyString => EmptyString
    | String c s' => String (f c) (go s')
    end.

(** [s.replace(old, new)] for one-character [old] and [new]. *)
Definition replace (old new : ascii) (s : string) : string :=
  map_string (fun c => if Ascii.eqb c old then new else c) s.

Definition lower_ascii (c : ascii) : ascii :=
  let n := nat_of_ascii c in
  if (Nat.leb 65 n && Nat.leb n 90)%bool then ascii_of_nat (n + 32) else c.

(** [s.lower()] on ASCII text. *)
Definition lower (s : string) : string := map_string lower_ascii s.

(** [max(l, default=d)] on integers. *)
Definition py_max (l : list Z) (default : Z) : Z :=
  match l with
  | [] => default
  | x :: xs => fold_left Z.max xs x
  end.

(** ** Files *)

(** [open(path, "w")]: the file is truncated, or the disk raises. *)
Definition open_w (path : string) : M unit :=
  fun w =>
    match open_fault w path with
    | Some e => (Raise e, w)
    | None => (Ok tt, set_files (insert path EmptyString) w)
    end.

(** The first [n] characters of a text. *)
Definition text_prefix (n : nat) (s : string) : string :=
  String.substring 0 n s.

(** [file.write(data)].  When the disk fails the text, the error surfaces
    here, with part of the text in the file, or the text stays in the buffer
    and the call returns. *)
Definition file_write (path data : string) : M unit :=
  fun w =>
    match write_fault w path with
    | Some e =>
        if fault_at_close w path
        then (Ok tt, set_files (insert path data) w)
        else (Raise e,
              set_files (insert path (text_prefix (fault_offset w path) data)) w)
    | None => (Ok tt, set_files (insert path data) w)
    end.

(** Closing the file flushes the buffer: a failure of the disk that did
    not surface in [file.write] surfaces here, with part of the text in the
    file. *)
Definition file_close (path : string) : M unit :=
  fun w =>
    match write_fault w path with
    | Some e =>
        if fault_at_close w path
        then (Raise e,
              set_files (alter (text_prefix (fault_offset w path)) path) w)
        else (Ok tt, w)
    | None => (Ok tt, w)
    end.

(** [with open(path, "w") as file: body].  The file is closed on the way
    out, also when [body] raises, and an exception of the close replaces
    the one of [body]. *)
Definition with_open_w {A} (path : string) (body : M A) : M A :=
  fun w =>
    match open_w path w with
    | (Raise e, w0) => (Raise e, w0)
    | (Ok _, w0) =>
        match body w0 with
        | (Ok a, w1) =>
            match file_close path w1 with
            | (Ok _, w2) => (Ok a, w2)
            | (Raise e, w2) => (Raise e, w2)
            end
        | (Raise e, w1) =>
            match file_close path w1 with
            | (Ok _, w2) => (Raise e, w2)
            | (Raise e', w2) => (Raise e', w2)
            end
        end
    end.

(** ** The queue *)

(** [results_queue.put(item)] *)
Definition queue_put (item : option Payload.t) : M unit :=
  fun w => (Ok tt, set_queue (fun q => q ++ [item]) w).

(** [datetime.now().strftime("%Y-%m-%d %H:%M:%S")] *)
Definition now_strftime : M string := fun w => (Ok (clock w), w).

Section Builder.
Context `{ImageLibs} `{SetIteration}.

(** ** prepare_image *)

Definition prepare_image_body (frame : Frame) (live_stream : bool)
    (encode_quality : Z) : M string :=
  frame ← (if live_stream then lift (cv2_resize frame (960, 540))
            else ret frame);
  sb ← lift (cv2_imencode ".png" frame
                [IMWRITE_PNG_COMPRESSION; encode_quality]);
  let '(success, buffer) := sb in
  if negb success then raise (mk_exn ValueError "Image encoding failed.")
  else
    let dashboard_img := b64encode buffer in
    _ ← lift (b64decode dashboard_img);
    logger_info [Lit "Image successfully encoded and validated as Base64."];;
    with_open_w "encoded_image.txt"
      (file_write "encoded_image.txt" dashboard_img;;
       logger_info [Lit "Encoded Base64 string written to 'encoded_image.txt'."]);;
    ret dashboard_img.

Definition prepare_image (frame : Frame) (live_stream : bool)
    (encode_quality : Z) : M string :=
  try_except (prepare_image_body frame live_stream encode_quality)
    isinstance_Exception
    (fun e => logger_error [Lit "Error in prepare_image: "; FmtExn e];;
              raise e).

(** ** accumulate_event *)

(** The dictionary appended for a recognised label. *)
Definition detection_entry (detection : string) (detection_id : Z) : Detection.t :=
  Detection.mk detection_id (lower (replace "_" " " detection)).

(** The [for detection in unique_detection_types] loop; [detections_list]
    is the list built so far. *)
Fixpoint collect_detections (unique_detection_types : list string)
    (detections_list : list Detection.t) : M (list Detection.t) :=
  match unique_detection_types with
  | [] => ret detections_list
  | detection :: rest =>
      match detection_types_mapping_dict detection with
      | None =>
          logger_warning [Lit "Detection type '"; FmtStr detection;
                          Lit "' not found in mapping. Skipping."];;
          collect_detections rest detections_list
      | Some detection_id =>
          collect_detections rest
            (detections_list ++ [detection_entry detection detection_id])
      end
  end.

Definition accumulate_event (location_id : Z) (frame : Frame)
    (detection_types : list string) : M unit :=
  let location_id := if location_id =? 0 then 1 else location_id in
  date ← now_strftime;
  let unique_detection_types := set_iter detection_types in
  detections_list ← collect_detections unique_detection_types [];
  let type := py_max (map Detection.type detections_list) 1 in
  image ← prepare_image frame false 50;
  let payload := Payload.mk location_id date type detections_list image in
  let results_without_image :=
    filter (fun kv => negb (String.eqb (fst kv) "image")) (Payload.items payload) in
  logger_info [Lit "Final Results for Queue (without image): ";
               FmtValue (PyDict results_without_image)];;
  queue_put (Some payload).

End Builder.

Section Worker.
Context `{MarkupLibs}.

(** ** parse_json_or_html *)

(** [response.json()] *)
Definition response_json (response : response) : M py_value :=
  lift (json_loads (text response)).

(** [soup.title.string if soup.title else "No Title"]; a tag is always
    truthy, and [.string] may be [None]. *)
Definition title_of (soup : Soup) : py_value :=
  match soup_title soup with
  | Some tag =>
      match tag_string tag with
      | Some s => PyStr s
      | None => PyNone
      end
  | None => PyStr "No Title"
  end.

Definition parse_json_or_html (response : response) : M py_value :=
  try_except (response_json response)
    isinstance_JSONDecodeError
    (fun _ =>
       logger_warning [Lit "Response is not JSON. Attempting to parse as HTML."];;
       let html_content := text response in
       let soup := BeautifulSoup html_content "html.parser" in
       let title := title_of soup in
       ret (PyDict [("html", PyDict [("title", title);
                                     ("content", PyStr (prettify soup))])])).

(** ** push_event *)

(** [response.raise_for_status()]: requests raises [HTTPError] for a
    status from 400 to 599 and returns for every other one. *)
Definition http_error_msg (response : response) : string :=
  if (400 <=? status_code response) && (status_code response <? 500) then
    pretty (status_code response) +:+ " Client Error: " +:+ reason response
      +:+ " for url: " +:+ url response
  else if (500 <=? status_code response) && (status_code response <? 600) then
    pretty (status_code response) +:+ " Server Error: " +:+ reason response
      +:+ " for url: " +:+ url response
  else "".

Definition raise_for_status (response : response) : M unit :=
  if String.eqb (http_error_msg response) "" then ret tt
  else raise (mk_exn (RequestException HTTPError) (http_error_msg response)).

(** The request [session.post(url, json=event, headers=headers)] sends. *)
Definition post_request (url : string) (json : Payload.t)
    (headers : list (string * string)) : request :=
  mk_request "POST" url headers json.

Definition session_post (session : Session) (url : string) (json : Payload.t)
    (headers : list (string * string)) : W response :=
  fun w =>
    let req := post_request url json headers in
    let w' := set_sent (fun rs => rs ++ [req]) w in
    match post session (length (sent w)) req with
    | Responded r => (Some (Ok r), w')
    | Failed k msg => (Some (Raise (mk_exn (RequestException k) msg)), w')
    | NoAnswer => (None, w')
    end.

Definition headers : list (string * string) :=
  [ ("Authorization", "Bearer " +:+ TOKEN);
    ("Content-Type", "application/json") ].

(** How one pass through the body of [while True] ends. *)
Inductive flow := Break | Continue.

(** The [try] block for an event that is not the sentinel. *)
Definition deliver (session : Session) (event : Payload.t) : W unit :=
  response ← session_post session DASHBOARD_LINK event headers;
  returns (
    raise_for_status response;;
    logger_info [Lit "Event pushed successfully: ";
                 FmtInt (status_code response)];;
    parsed_response ← parse_json_or_html response;
    logger_debug [Lit "Response from dashboard: "; FmtValue parsed_response]).

(** One pass through the loop body, for the item [event_queue.get()]
    returned. *)
Definition push_event_iteration (session : Session)
    (event : option Payload.t) : W flow :=
  try_except_W
    (match event with
     | None =>
         returns (
           logger_info [Lit "Received sentinel value. Stopping push_event."];;
           ret Break)
     | Some event => deliver session event;; mret Continue
     end)
    isinstance_RequestException
    (fun e =>
       returns (
         logger_error [Lit "Error pushing event to dashboard: "; FmtExn e];;
         ret Continue)).

(** How a run of [push_event] over the items enqueued so far ends: it
    returns after the sentinel, it waits in [event_queue.get()] on the
    drained queue, an exception leaves the function, or it is stuck in a
    [session.post] that never returns. *)
Inductive termination :=
  | Returned
  | Blocked
  | Crashed (e : exn)
  | Stalled.

(** [events] is the content of the queue, oldest item first; [get]
    removes its head. *)
Fixpoint push_event_loop (session : Session)
    (events : list (option Payload.t)) (w : world) : termination * world :=
  match events with
  | [] => (Blocked, w)
  | event :: events' =>
      match push_event_iteration session event
              (set_queue (fun _ => events') w) with
      | (Some (Ok Continue), w') => push_event_loop session events' w'
      | (Some (Ok Break), w') =>
          (Returned,
           snd (logger_info [Lit "push_event process finished."] w'))
      | (Some (Raise e), w') => (Crashed e, w')
      | (None, w') => (Stalled, w')
      end
  end.

Definition push_event (session : Session) (w : world) : termination * world :=
  push_event_loop session (queue w) w.

End Worker.


(** * Vocabulary of the properties

    The definitions below are not part of [dashboard.py]: they name what the
    statements of the properties talk about. *)

(** The world with the records [rs] appended to its log. *)
Definition add_log (rs : list log_record) (w : world) : world :=
  set_log (fun l => l ++ rs) w.

Section BuilderVocabulary.
Context `{ImageLibs} `{SetIteration}.

(** The file the encoded picture is written to. *)
Definition debug_file : string := "encoded_image.txt".

(** [img] is what the picture pipeline makes of [frame]: the encoder
    reports success, [img] is the Base64 text of its buffer, and that text
    validates. *)
Definition encodes (frame : Frame) (q : Z) (img : string) : Prop :=
  exists buffer decoded,
    cv2_imencode ".png" frame [IMWRITE_PNG_COMPRESSION; q] = Ok (true, buffer) /\
    img = b64encode buffer /\
    b64decode img = Ok decoded.

(** The two records of a [prepare_image] that returns. *)
Definition prepare_image_info : list log_record :=
  [ mk_log INFO [Lit "Image successfully encoded and validated as Base64."];
    mk_log INFO [Lit "Encoded Base64 string written to 'encoded_image.txt'."] ].

(** The exception image encoding fails with, if it fails: the one the
    encoder raises, the [ValueError] for an encoder that reports no success,
    or the one the validation of the Base64 text raises. *)
Definition encoding_error (frame : Frame) (q : Z) : option exn :=
  match cv2_imencode ".png" frame [IMWRITE_PNG_COMPRESSION; q] with
  | Raise e => Some e
  | Ok (false, _) => Some (mk_exn ValueError "Image encoding failed.")
  | Ok (true, buffer) =>
      match b64decode (b64encode buffer) with
      | Raise e => Some e
      | Ok _ => None
      end
  end.

(** The record of the handler of [prepare_image]. *)
Definition prepare_image_error (e : exn) : log_record :=
  mk_log ERROR [Lit "Error in prepare_image: "; FmtExn e].

(** The entries of the recognised labels of [labels], in order. *)
Definition recognised (labels : list string) : list Detection.t :=
  omap (fun l => detection_entry l <$> detection_types_mapping_dict l) labels.

(** The warning for a label that is not in the mapping. *)
Definition skip_warning (detection : string) : log_record :=
  mk_log WARNING [Lit "Detection type '"; FmtStr detection;
                  Lit "' not found in mapping. Skipping."].

(** The warnings for the labels of [labels] that are not in the mapping. *)
Definition skip_warnings (labels : list string) : list log_record :=
  omap (fun l => match detection_types_mapping_dict l with
                 | None => Some (skip_warning l)
                 | Some _ => None
                 end) labels.

(** Whether a label is in the mapping. *)
Definition known (l : string) : bool :=
  match detection_types_mapping_dict l with Some _ => true | None => false end.

(** The entry of a label that is in the mapping. *)
Definition entry_of (l : string) : Detection.t :=
  Detection.mk (default 1 (detection_types_mapping_dict l))
               (lower (replace "_" " " l)).

(** The payload of an event whose distinct labels are iterated as
    [labels]. *)
Definition built_payload (location_id : Z) (date : string)
    (labels : list string) (image : string) : Payload.t :=
  Payload.mk (if location_id =? 0 then 1 else location_id) date
    (py_max (map Detection.type (recognised labels)) 1)
    (recognised labels) image.

(** The record logged before the [put]. *)
Definition queued_info (p : Payload.t) : log_record :=
  mk_log INFO
    [Lit "Final Results for Queue (without image): ";
     FmtValue (PyDict (filter (fun kv => negb (String.eqb (fst kv) "image"))
                              (Payload.items p)))].

End BuilderVocabulary.

(** The headers of every request. *)
Definition bearer_headers : list (string * string) :=
  [ ("Authorization", "Bearer TOKEN"); ("Content-Type", "application/json") ].

(** The request the worker sends for a payload, written out. *)
Definition dashboard_request (p : Payload.t) : request :=
  mk_request "POST" "DASHBOARD_LINK" bearer_headers p.

(** The record of a submission that went through. *)
Definition pushed_info (status : Z) : log_record :=
  mk_log INFO [Lit "Event pushed successfully: "; FmtInt status].

(** The record of the handler of the loop. *)
Definition push_error (e : exn) : log_record :=
  mk_log ERROR [Lit "Error pushing event to dashboard: "; FmtExn e].

(** The warning of [parse_json_or_html] for a body that is not JSON. *)
Definition not_json_warning : log_record :=
  mk_log WARNING [Lit "Response is not JSON. Attempting to parse as HTML."].

(** The two records logged when the sentinel is dequeued. *)
Definition sentinel_info : list log_record :=
  [ mk_log INFO [Lit "Received sentinel value. Stopping push_event."];
    mk_log INFO [Lit "push_event process finished."] ].

(** The world after [session.post] was called for the payload [p]. *)
Definition sent_to (p : Payload.t) (w : world) : world :=
  set_sent (fun rs => rs ++ [dashboard_request p]) w.

(** The text of the [HTTPError] for a status from 400 to 599. *)
Definition status_error_text (r : response) : string :=
  pretty (status_code r)
  +:+ (if status_code r <? 500 then " Client Error: " else " Server Error: ")
  +:+ reason r +:+ " for url: " +:+ url r.

(** The exception a failed submission ends with: the one [session.post]
    raised, or the [HTTPError] for a status from 400 to 599. *)
Definition submission_error (o : http_outcome) : option exn :=
  match o with
  | Failed k msg => Some (mk_exn (RequestException k) msg)
  | Responded r =>
      if (400 <=? status_code r) && (status_code r <? 600)
      then Some (mk_exn (RequestException HTTPError) (status_error_text r))
      else None
  | NoAnswer => None
  end.

(** A submission fails when [session.post] raises or the response has a
    status that [raise_for_status] rejects. *)
Definition submission_fails (o : http_outcome) : Prop :=
  match o with
  | Failed _ _ => True
  | Responded r => 400 <= status_code r < 600
  | NoAnswer => False
  end.

(** Whether a record is an error record. *)
Definition is_error (rec : log_record) : bool :=
  match log_level rec with
  | ERROR => true
  | _ => false
  end.

(** The payloads in front of the first sentinel. *)
Fixpoint before_sentinel (events : list (option Payload.t)) : list Payload.t :=
  match events with
  | Some p :: events' => p :: before_sentinel events'
  | _ => []
  end.

(** The outcomes of the submissions of the payloads [ps], the first of
    them being request number [n] of the process. *)
Fixpoint outcomes (session : Session) (n : nat) (ps : list Payload.t)
    : list http_outcome :=
  match ps with
  | [] => []
  | p :: ps' =>
      post session n (dashboard_request p) :: outcomes session (S n) ps'
  end.

Section WorkerVocabulary.
Context `{MarkupLibs}.

(** The dictionary returned for a body that is not JSON. *)
Definition html_fallback (body : string) : py_value :=
  let soup := BeautifulSoup body "html.parser" in
  PyDict [("html", PyDict [("title", title_of soup);
                           ("content", PyStr (prettify soup))])].

(** How the pass for a payload ends, given the outcome of its submission:
    it goes back to the head of the loop, an exception leaves the loop, or
    it never ends; with the records it logged. *)
Inductive pass_end :=
  | Goes (rs : list log_record)
  | Dies (e : exn) (rs : list log_record)
  | Hangs.

Definition pass_end_of (o : http_outcome) : pass_end :=
  match o with
  | NoAnswer => Hangs
  | Failed k msg => Goes [push_error (mk_exn (RequestException k) msg)]
  | Responded r =>
      if (400 <=? status_code r) && (status_code r <? 600)
      then Goes [push_error (mk_exn (RequestException HTTPError)
                               (status_error_text r))]
      else
        match json_loads (text r) with
        | Ok _ => Goes [pushed_info (status_code r)]
        | Raise e =>
            if isinstance_JSONDecodeError e
            then Goes [pushed_info (status_code r); not_json_warning]
            else if isinstance_RequestException e
            then Goes [pushed_info (status_code r); push_error e]
            else Dies e [pushed_info (status_code r)]
        end
  end.


(** Whether the pass of a submission ended in the [except] clause of the
    loop: the submission failed, or [response.json()] raised a
    [RequestException] that is no [json.JSONDecodeError]. *)
Definition handled (o : http_outcome) : bool :=
  match o with
  | NoAnswer => false
  | Failed _ _ => true
  | Responded r =>
      (400 <=? status_code r) && (status_code r <? 600)
      || match json_loads (text r) with
         | Ok _ => false
         | Raise e =>
             negb (isinstance_JSONDecodeError e) && isinstance_RequestException e
         end
  end.

End WorkerVocabulary.

(** * A concrete platform

    Small stand-ins for the libraries and the environment, to run the model
    on concrete events. *)

Module Sample.

(** Base64 over the standard alphabet. *)
Definition alphabet : string :=
  "ABCDEFGHIJKLMNOPQRSTUVWXYZabcdefghijklmnopqrstuvwxyz0123456789+/".

Definition sextet_char (n : Z) : ascii :=
  match String.get (Z.to_nat n) alphabet with
  | Some c => c
  | None => "="%char
  end.

Fixpoint index_from (i : Z) (c : ascii) (s : string) : option Z :=
  match s with
  | EmptyString => None
  | String c' s' => if Ascii.eqb c c' then Some i else index_from (i + 1) c s'
  end.

Definition char_sextet (c : ascii) : option Z := index_from 0 c alphabet.

Fixpoint encode (bytes : list Z) : string :=
  match bytes with
  | [] => EmptyString
  | [a] =>
      String (sextet_char (a / 4)) (String (sextet_char (a mod 4 * 16)) "==")
  | [a; b] =>
      String (sextet_char (a / 4))
        (String (sextet_char (a mod 4 * 16 + b / 16))
           (String (sextet_char (b mod 16 * 4)) "="))
  | a :: b :: c :: rest =>
      String (sextet_char (a / 4))
        (String (sextet_char (a mod 4 * 16 + b / 16))
           (String (sextet_char (b mod 16 * 4 + c / 64))
              (String (sextet_char (c mod 64)) (encode rest))))
  end.

Fixpoint decode (s : string) : option (list Z) :=
  match s with
  | EmptyString => Some []
  | String c1 (String c2 (String c3 (String c4 rest))) =>
      match char_sextet c1, char_sextet c2 with
      | Some a, Some b =>
          match char_sextet c3, char_sextet c4 with
          | Some c, Some d =>
              cons (a * 4 + b / 16) <$>
                (cons (b mod 16 * 16 + c / 4) <$>
                   (cons (c mod 4 * 64 + d) <$> decode rest))
          | Some c, None =>
              if (Ascii.eqb c4 "=" && String.eqb rest "")%bool
              then Some [a * 4 + b / 16; b mod 16 * 16 + c / 4] else None
          | None, _ =>
              if (Ascii.eqb c3 "=" && Ascii.eqb c4 "=" && String.eqb rest "")%bool
              then Some [a * 4 + b / 16] else None
          end
      | _, _ => None
      end
  | _ => None
  end.

(** A frame is given by the PNG bytes the encoder produces for it; the
    encoder rejects the empty frame. *)
#[local] Instance image_libs : ImageLibs := {|
  Frame := list Z;
  cv2_resize frame _ := Ok frame;
  cv2_imencode _ frame _ :=
    match frame with
    | [] => Raise (mk_exn Cv2Error "(-215:Assertion failed) !image.empty()")
    | _ => Ok (true, frame)
    end;
  b64encode := encode;
  b64decode s :=
    match decode s with
    | Some bytes => Ok bytes
    | None => Raise (mk_exn BinasciiError "Incorrect padding")
    end;
|}.

(** Sets iterated in the order of first occurrence. *)
#[local] Instance first_occurrence : SetIteration := {|
  set_iter := remove_dups;
  set_iter_NoDup := NoDup_remove_dups;
  set_iter_elem := elem_of_remove_dups;
|}.

(** Markup whose title is the text between a leading title tag and the
    next tag. *)
Fixpoint up_to (stop : ascii) (s : string) : string :=
  match s with
  | EmptyString => EmptyString
  | String c s' => if Ascii.eqb c stop then EmptyString else String c (up_to stop s')
  end.

Definition title_after (body : string) : option string :=
  if String.prefix "<title>" body
  then Some (up_to "<" (String.substring 7 (String.length body - 7) body))
  else None.

(** The depth of the arrays a text opens with. *)
Fixpoint leading_brackets (s : string) : nat :=
  match s with
  | String "[" s' => S (leading_brackets s')
  | _ => O
  end.

(** A JSON reader that knows two documents and gives up, as the decoder
    does at the recursion limit of the interpreter, on arrays nested a
    thousand deep; every other text is not JSON for it.  [stdlib] tells
    whether requests found the decoder of the standard library or
    simplejson. *)
Definition reader (stdlib : bool) (body : string) : result py_value :=
  if String.eqb body "{}" then Ok (PyDict [])
  else if String.eqb body "[]" then Ok (PyList [])
  else if (1000 <=? leading_brackets body)%nat
  then Raise (mk_exn RecursionError
                "maximum recursion depth exceeded while decoding a JSON array from a unicode string")
  else Raise (mk_exn (RequestException (JSONDecodeError stdlib))
                "Expecting value: line 1 column 1 (char 0)").

(** A body of [n] opening brackets. *)
Fixpoint nested (n : nat) : string :=
  match n with
  | O => EmptyString
  | S n' => String "[" (nested n')
  end.

#[local] Instance markup_libs : MarkupLibs := {|
  json_loads := reader true;
  Soup := string;
  Tag := string;
  BeautifulSoup body _ := body;
  soup_title := title_after;
  tag_string tag := Some tag;
  prettify body := body;
|}.

(** The same libraries where simplejson is importable. *)
Definition simplejson_libs : MarkupLibs := {|
  json_loads := reader false;
  Soup := string;
  Tag := string;
  BeautifulSoup body _ := body;
  soup_title := title_after;
  tag_string tag := Some tag;
  prettify body := body;
|}.

(** Markup libraries whose title elements have no single string child. *)
Definition untitled_libs : MarkupLibs := {|
  json_loads := reader true;
  Soup := string;
  Tag := string;
  BeautifulSoup body _ := body;
  soup_title := title_after;
  tag_string tag := None;
  prettify body := body;
|}.

(** A dashboard that answers every request with the same status. *)
Definition answers (status : Z) (reason body : string) : Session :=
  mk_session (fun _ req => Responded (mk_response status reason (req_url req) body)).

(** A dashboard that is unreachable for the first request and answers 200
    from then on. *)
Definition flaky : Session :=
  mk_session (fun n req =>
    match n with
    | O => Failed ConnectionError "Connection refused"
    | S _ => Responded (mk_response 200 "OK" (req_url req) "{}")
    end).

(** A dashboard that answers the first request and never the second. *)
Definition silent : Session :=
  mk_session (fun n req =>
    match n with
    | O => Responded (mk_response 200 "OK" (req_url req) "{}")
    | S _ => NoAnswer
    end).

Definition start : world :=
  mk_world "2024-05-17 08:30:00" [] ∅ (fun _ => None) (fun _ => None)
           (fun _ => false) (fun _ => O) [] [].

(** The same world on a disk that refuses to open files for writing. *)
Definition permission_denied : exn :=
  mk_exn OSError "[Errno 13] Permission denied: 'encoded_image.txt'".

Definition read_only : world :=
  mk_world "2024-05-17 08:30:00" [] ∅ (fun _ => Some permission_denied)
           (fun _ => None) (fun _ => false) (fun _ => O) [] [].

Definition frame : list Z := [137; 80; 78; 71].

Definition payload (location_id : Z) : Payload.t :=
  Payload.mk location_id "2024-05-17 08:30:00" 2
    [Detection.mk 2 "no helmet"] "iVBORw==".

(** The event of the specification's examples: a location id of 0, a
    repeated label and a label outside the mapping. *)
Definition helmet_event : result unit * world :=
  accumulate_event 0 Sample.frame
    ["No_Helmet"; "No_Helmet"; "No_Gloves"; "Unknown_Thing"] Sample.start.

Definition gloves_helmet_event : result unit * world :=
  accumulate_event 7 Sample.frame ["No_Gloves"; "No_Helmet"] Sample.start.

Definition negative_event : result unit * world :=
  accumulate_event (-5) Sample.frame ["No_Sleeves"] Sample.start.

(** A queue with two payloads before the sentinel and one after it. *)
Definition stop_queue : world :=
  set_queue (fun _ => [Some (Sample.payload 1); Some (Sample.payload 2); None;
                       Some (Sample.payload 3)]) Sample.start.

(** A queue whose only payload is answered with status 304. *)
Definition not_modified_queue : world :=
  set_queue (fun _ => [Some (Sample.payload 1); None]) Sample.start.

(** A disk that opens the debug file, which holds an older picture, and
    fails the write after three characters. *)
Definition no_space : exn := mk_exn OSError "[Errno 28] No space left on device".

Definition disk_full : world :=
  mk_world "2024-05-17 08:30:00" [] {[ "encoded_image.txt" := "b2xk" ]}
           (fun _ => None) (fun _ => Some no_space)
           (fun _ => false) (fun _ => 3%nat) [] [].

(** The same disk when the text stays in the buffer: the failure surfaces
    when the file is closed, with nothing written. *)
Definition disk_full_at_close : world :=
  mk_world "2024-05-17 08:30:00" [] {[ "encoded_image.txt" := "b2xk" ]}
           (fun _ => None) (fun _ => Some no_space)
           (fun _ => true) (fun _ => O) [] [].

(** The events of the runs above on other inputs: a live-stream picture, the
    same labels in another order and with repetitions, and a second event
    behind the first. *)
Definition live_picture : result string * world :=
  prepare_image frame true 50 start.

Definition denied_picture : result string * world :=
  prepare_image frame false 50 read_only.

Definition unwritten_picture : result string * world :=
  prepare_image frame false 50 disk_full.

Definition second_event : result unit * world :=
  accumulate_event 9 frame ["No_Sleeves"; "no_helmet"] (snd helmet_event).


(** Sets iterated from the last distinct element to the first. *)
#[local] Instance last_first : SetIteration := {|
  set_iter l := reverse (remove_dups l);
  set_iter_NoDup l :=
    proj2 (NoDup_Permutation_proper _ _ (reverse_Permutation (remove_dups l)))
          (NoDup_remove_dups l);
  set_iter_elem l x :=
    iff_trans (elem_of_reverse x (remove_dups l)) (elem_of_remove_dups l x);
|}.

(** The event of [helmet_event] with its labels in another order and
    without the repetition, iterated from the last label to the first. *)
Definition reordered_event : result unit * world :=
  accumulate_event (H0:=last_first) 0 frame
    ["No_Helmet"; "Unknown_Thing"; "No_Gloves"] start.


End Sample.

(** ** Further vocabulary *)

(** The three entries a payload can list. *)
Definition fixed_entries : list Detection.t :=
  [ Detection.mk 0 "no gloves"; Detection.mk 1 "no sleeves";
    Detection.mk 2 "no helmet" ].

(** The record logged before the [put], written out: the items of the
    payload but the image. *)
Definition queued_record (p : Payload.t) : log_record :=
  mk_log INFO
    [ Lit "Final Results for Queue (without image): ";
      FmtValue
        (PyDict
           [ ("location_id", PyInt (Payload.location_id p));
             ("date", PyStr (Payload.date p));
             ("type", PyInt (Payload.type p));
             ("detections",
              PyList (map Detection.to_value (Payload.detections p))) ]) ].

Section PictureVocabulary.
Context `{ImageLibs}.

(** What [prepare_image] without live stream returns or raises, given the
    answers of the disk for the debug file. *)
Definition picture_result (frame : Frame) (q : Z)
    (open_answer write_answer : option exn) : result string :=
  match encoding_error frame q with
  | Some e => Raise e
  | None =>
      match cv2_imencode ".png" frame [IMWRITE_PNG_COMPRESSION; q] with
      | Raise e => Raise e
      | Ok (_, buffer) =>
          match open_answer, write_answer with
          | Some e, _ => Raise e
          | None, Some e => Raise e
          | None, None => Ok (b64encode buffer)
          end
      end
  end.

(** The frame that is encoded: the resized one with [live_stream]. *)
Definition encoded_frame (frame : Frame) (live_stream : bool)
    (frame' : Frame) : Prop :=
  if live_stream then cv2_resize frame (960, 540) = Ok frame'
  else frame' = frame.

End PictureVocabulary.


(** * Properties *)

(** ** The fixed mapping *)

(** The mapping has three entries and nothing else. *)
Lemma mapping_dict_spec (detection : string) (code : Z) :
  detection_types_mapping_dict detection = Some code <->
  (detection = "No_Gloves" /\ code = 0) \/
  (detection = "No_Sleeves" /\ code = 1) \/
  (detection = "No_Helmet" /\ code = 2).
Proof.
  unfold detection_types_mapping_dict.
  repeat case_decide; subst; split; intros Hc;
    try (injection Hc as <-); try discriminate; try tauto;
    destruct Hc as [[? ?]|[[? ?]|[? ?]]]; subst;
    try reflexivity; try discriminate; congruence.
Qed.

Lemma mapping_dict_range (detection : string) (code : Z) :
  detection_types_mapping_dict detection = Some code -> 0 <= code <= 2.
Proof. rewrite mapping_dict_spec. intros [[_ ->]|[[_ ->]|[_ ->]]]; lia. Qed.

(** ** max with a default *)

Lemma fold_left_max_ge (l : list Z) (x : Z) : x <= fold_left Z.max l x.
Proof.
  revert x. induction l as [|y l IH]; intros x; simpl; [lia|].
  specialize (IH (Z.max x y)). lia.
Qed.

Lemma fold_left_max_upper (l : list Z) (x y : Z) :
  y ∈ l -> y <= fold_left Z.max l x.
Proof.
  revert x. induction l as [|z l IH]; intros x Hy; simpl.
  - inversion Hy.
  - apply elem_of_cons in Hy as [->|Hy]; [|by apply IH].
    pose proof (fold_left_max_ge l (Z.max x z)). lia.
Qed.

Lemma fold_left_max_elem (l : list Z) (x : Z) :
  fold_left Z.max l x = x \/ fold_left Z.max l x ∈ l.
Proof.
  revert x. induction l as [|z l IH]; intros x; simpl; [by left|].
  destruct (IH (Z.max x z)) as [Heq|Hin].
  - rewrite Heq. destruct (Z.max_spec x z) as [[_ ->]|[_ ->]].
    + right. apply elem_of_cons. by left.
    + by left.
  - right. apply elem_of_cons. by right.
Qed.

Lemma py_max_nil (d : Z) : py_max [] d = d.
Proof. reflexivity. Qed.

(** On a list that is not empty the default plays no part: the result is
    an element of the list and bounds every element. *)
Lemma py_max_elem (l : list Z) (d : Z) : l <> [] -> py_max l d ∈ l.
Proof.
  destruct l as [|x l]; [done|]. intros _. simpl.
  destruct (fold_left_max_elem l x) as [->|Hin]; apply elem_of_cons; auto.
Qed.

Lemma py_max_upper (l : list Z) (d y : Z) : y ∈ l -> y <= py_max l d.
Proof.
  destruct l as [|x l]; [by inversion 1|]. simpl.
  intros [->|Hy]%elem_of_cons.
  - apply fold_left_max_ge.
  - by apply fold_left_max_upper.
Qed.

(** ** State changes *)

Lemma add_log_nil (w : world) : add_log [] w = w.
Proof. destruct w. unfold add_log, set_log. simpl. by rewrite app_nil_r. Qed.

Lemma add_log_add_log (rs rs' : list log_record) (w : world) :
  add_log rs' (add_log rs w) = add_log (rs ++ rs') w.
Proof. unfold add_log, set_log. simpl. by rewrite app_assoc. Qed.

Lemma logger_log_enabled (l : level) (msg : list fragment) (w : world) :
  l <> DEBUG -> logger_log l msg w = (Ok tt, add_log [mk_log l msg] w).
Proof. by destruct l. Qed.

Lemma logger_debug_silent (msg : list fragment) (w : world) :
  logger_debug msg w = (Ok tt, w).
Proof. reflexivity. Qed.

(** Unfolding of the bind at a known first step. *)
Lemma bind_Ok {A B} (m : M A) (k : A -> M B) (w w' : world) (a : A) :
  m w = (Ok a, w') -> (m ≫= k) w = k a w'.
Proof. intros Hm. unfold mbind, M_bind, bind. by rewrite Hm. Qed.

Lemma bind_Raise {A B} (m : M A) (k : A -> M B) (w w' : world) (e : exn) :
  m w = (Raise e, w') -> (m ≫= k) w = (Raise e, w').
Proof. intros Hm. unfold mbind, M_bind, bind. by rewrite Hm. Qed.

(** Runs a monadic program symbolically: the operations are unfolded and
    every scrutinee that blocks the computation is split. *)
Ltac unfold_py :=
  unfold try_except, mbind, M_bind, bind, mret, M_ret, ret, raise, lift,
    logger_info, logger_warning, logger_error, logger_debug, logger_log,
    with_open_w, open_w, file_write, file_close, queue_put, now_strftime in *.

Ltac run_py := unfold_py; simpl in *; repeat (case_match; simpl in *; simplify_eq).

Section BuilderProperties.
Context `{ImageLibs} `{SetIteration}.

(** *** prepare_image *)

(** [prepare_image] touches the log and the files only. *)
Lemma prepare_image_frame (frame : Frame) (live_stream : bool) (q : Z)
    (w w' : world) (r : result string) :
  prepare_image frame live_stream q w = (r, w') ->
  queue w' = queue w /\ sent w' = sent w /\ clock w' = clock w /\
  open_fault w' = open_fault w /\ write_fault w' = write_fault w.
Proof.
  unfold prepare_image, prepare_image_body. intros Hrun.
  destruct live_stream; run_py; done.
Qed.

(** When encoding itself fails, [prepare_image] logs the exception and
    raises it again. *)
Lemma prepare_image_encoding_error (frame : Frame) (q : Z) (w : world)
    (e : exn) :
  encoding_error frame q = Some e ->
  prepare_image frame false q w = (Raise e, add_log [prepare_image_error e] w).
Proof.
  unfold encoding_error, prepare_image, prepare_image_body. intros Hfail.
  unfold_py. simpl.
  destruct (cv2_imencode _ _ _) as [[[] buffer]|e']; simpl; simplify_eq;
    try done.
  by destruct (b64decode _); simplify_eq.
Qed.

(** Encoding either fails or produces the Base64 text. *)
Lemma encoding_error_None (frame : Frame) (q : Z) :
  encoding_error frame q = None <-> exists img, encodes frame q img.
Proof.
  unfold encoding_error, encodes. split.
  - destruct (cv2_imencode _ _ _) as [[[] buffer]|e] eqn:Henc; try done.
    destruct (b64decode _) as [decoded|e] eqn:Hdec; [|done]. eauto 10.
  - intros (img & buffer & decoded & -> & -> & ->). done.
Qed.

Lemma encodes_unique (frame : Frame) (q : Z) (img img' : string) :
  encodes frame q img -> encodes frame q img' -> img = img'.
Proof.
  intros (buffer & decoded & Henc & -> & _) (buffer' & decoded' & Henc' & -> & _).
  congruence.
Qed.

(** Once the text is encoded and validated, the run is decided by the
    disk: the debug file does not open, the write fails in [file.write] or
    at the close, or the string is returned. *)
Lemma prepare_image_encoded (frame : Frame) (q : Z) (w : world) (img : string) :
  encodes frame q img ->
  prepare_image frame false q w =
    match open_fault w debug_file with
    | Some e =>
        (Raise e,
         add_log [ mk_log INFO [Lit "Image successfully encoded and validated as Base64."];
                   prepare_image_error e ] w)
    | None =>
        match write_fault w debug_file with
        | None =>
            (Ok img, set_files (insert debug_file img)
                       (add_log prepare_image_info w))
        | Some e =>
            (Raise e,
             add_log [prepare_image_error e]
               (set_files
                  (insert debug_file
                     (String.substring 0 (fault_offset w debug_file) img))
                  (add_log
                     (if fault_at_close w debug_file then prepare_image_info
                      else [ mk_log INFO [Lit "Image successfully encoded and validated as Base64."] ])
                     w)))
        end
    end.
Proof.
  intros (buffer & decoded & Henc & -> & Hdec).
  unfold prepare_image, prepare_image_body, debug_file in *.
  unfold_py. simpl. rewrite Henc. simpl. rewrite Hdec. simpl.
  destruct (open_fault w "encoded_image.txt") as [e|] eqn:Hopen; simpl.
  { f_equal. unfold add_log, set_log. simpl. by rewrite <- app_assoc. }
  destruct (write_fault w "encoded_image.txt") as [e|] eqn:Hwrite; simpl.
  - destruct (fault_at_close w "encoded_image.txt") eqn:Hclose; simpl;
      rewrite ?Hwrite, ?Hclose; simpl; f_equal;
      unfold add_log, set_log, set_files, text_prefix; simpl; f_equal;
      rewrite <- ?app_assoc; try done.
    + by rewrite alter_insert_eq, insert_insert_eq.
    + by rewrite insert_insert_eq.
  - rewrite ?Hwrite. simpl. f_equal.
    unfold add_log, set_log, set_files; simpl; f_equal.
    + by rewrite <- app_assoc.
    + by rewrite insert_insert_eq.
Qed.

Lemma prepare_image_succeeds (frame : Frame) (q : Z) (w : world) (img : string) :
  encodes frame q img ->
  open_fault w debug_file = None ->
  write_fault w debug_file = None ->
  prepare_image frame false q w =
    (Ok img, set_files (insert debug_file img) (add_log prepare_image_info w)).
Proof.
  intros Henc Hopen Hwrite.
  by rewrite (prepare_image_encoded _ _ _ _ Henc), Hopen, Hwrite.
Qed.

(** The debug write sits inside the [try] block whose handler logs and
    raises again: when the file cannot be opened, the validated string is
    discarded and the [OSError] leaves [prepare_image]. *)
Lemma prepare_image_open_fault (frame : Frame) (q : Z) (w : world)
    (img : string) (e : exn) :
  encodes frame q img ->
  open_fault w debug_file = Some e ->
  prepare_image frame false q w =
    (Raise e,
     add_log [ mk_log INFO [Lit "Image successfully encoded and validated as Base64."];
               prepare_image_error e ] w).
Proof.
  intros Henc Hopen.
  by rewrite (prepare_image_encoded _ _ _ _ Henc), Hopen.
Qed.

(** The same holds when the file opens and the text cannot be written;
    the file is left with the part of the text that reached it. *)
Lemma prepare_image_write_fault (frame : Frame) (q : Z) (w : world)
    (img : string) (e : exn) :
  encodes frame q img ->
  open_fault w debug_file = None ->
  write_fault w debug_file = Some e ->
  prepare_image frame false q w =
    (Raise e,
     add_log [prepare_image_error e]
       (set_files
          (insert debug_file
             (String.substring 0 (fault_offset w debug_file) img))
          (add_log
             (if fault_at_close w debug_file then prepare_image_info
              else [ mk_log INFO [Lit "Image successfully encoded and validated as Base64."] ])
             w))).
Proof.
  intros Henc Hopen Hwrite.
  by rewrite (prepare_image_encoded _ _ _ _ Henc), Hopen, Hwrite.
Qed.

(** A returned string is the Base64 text of a buffer [cv2.imencode]
    produced with success, and [b64decode] accepted it. *)
Lemma prepare_image_Ok (frame : Frame) (q : Z) (w w' : world) (img : string) :
  prepare_image frame false q w = (Ok img, w') ->
  exists buffer decoded,
    cv2_imencode ".png" frame [IMWRITE_PNG_COMPRESSION; q] = Ok (true, buffer) /\
    img = b64encode buffer /\
    b64decode img = Ok decoded /\
    open_fault w debug_file = None /\ write_fault w debug_file = None.
Proof.
  intros Hrun. destruct (encoding_error frame q) as [e|] eqn:Herr.
  { by rewrite (prepare_image_encoding_error _ _ _ _ Herr) in Hrun. }
  apply encoding_error_None in Herr as [img' Henc].
  rewrite (prepare_image_encoded _ _ _ _ Henc) in Hrun.
  destruct (open_fault w debug_file); [done|].
  destruct (write_fault w debug_file); [done|].
  injection Hrun as <- _.
  destruct Henc as (buffer & decoded & Henc & Himg & Hdec).
  by exists buffer, decoded.
Qed.

(** *** The detections loop *)

(** The loop never raises: it appends the recognised entries and logs a
    warning for each other label. *)
Lemma collect_detections_run (labels : list string) (acc : list Detection.t)
    (w : world) :
  collect_detections labels acc w =
    (Ok (acc ++ recognised labels), add_log (skip_warnings labels) w).
Proof.
  revert acc w. induction labels as [|l labels IH]; intros acc w.
  - simpl. unfold mret, M_ret, ret. by rewrite app_nil_r, add_log_nil.
  - unfold recognised, skip_warnings. simpl.
    destruct (detection_types_mapping_dict l) as [code|] eqn:Hl; simpl.
    + rewrite IH. by rewrite <- app_assoc.
    + erewrite bind_Ok; [|by apply logger_log_enabled].
      rewrite IH. by rewrite add_log_add_log.
Qed.

Lemma elem_of_recognised (labels : list string) (d : Detection.t) :
  d ∈ recognised labels <->
  exists l code, l ∈ labels /\ detection_types_mapping_dict l = Some code /\
                 d = detection_entry l code.
Proof.
  unfold recognised. rewrite list_elem_of_omap. split.
  - intros (l & Hl & Hd). destruct (detection_types_mapping_dict l) as [code|] eqn:Hc;
      simpl in Hd; simplify_eq. eauto.
  - intros (l & code & Hl & Hc & ->). exists l. by rewrite Hc.
Qed.

Lemma elem_of_skip_warnings (labels : list string) (l : string) :
  l ∈ labels -> detection_types_mapping_dict l = None ->
  skip_warning l ∈ skip_warnings labels.
Proof.
  intros Hl Hc. unfold skip_warnings. apply list_elem_of_omap.
  exists l. by rewrite Hc.
Qed.

(** The codes of the entries are the codes of the recognised labels. *)
Lemma recognised_types (labels : list string) :
  map Detection.type (recognised labels) =
  omap detection_types_mapping_dict labels.
Proof.
  unfold recognised. induction labels as [|l labels IH]; [done|]. simpl.
  destruct (detection_types_mapping_dict l); simpl; [f_equal|]; exact IH.
Qed.

(** For the recognised labels, an equivalent description as a plain map
    over the labels that are in the mapping. *)
Lemma recognised_cons (l : string) (labels : list string) :
  recognised (l :: labels) =
  match detection_types_mapping_dict l with
  | Some code => detection_entry l code :: recognised labels
  | None => recognised labels
  end.
Proof.
  unfold recognised. simpl. by destruct (detection_types_mapping_dict l).
Qed.

Lemma recognised_map (labels : list string) :
  recognised labels = map entry_of (filter (fun l => known l) labels).
Proof.
  induction labels as [|l labels IH]; [done|].
  rewrite filter_cons, recognised_cons, IH. clear IH.
  case_decide as Hk; unfold known in Hk;
    destruct (detection_types_mapping_dict l) as [code|] eqn:Hc; simpl;
    try done.
  unfold entry_of, detection_entry. by rewrite Hc.
Qed.

(** *** accumulate_event *)

(** [accumulate_event] is the detections loop, then [prepare_image], then
    the log record and the [put]; an exception of [prepare_image] ends it
    before the [put]. *)
Lemma accumulate_event_run (location_id : Z) (frame : Frame)
    (detection_types : list string) (w : world) :
  accumulate_event location_id frame detection_types w =
    match prepare_image frame false 50
            (add_log (skip_warnings (set_iter detection_types)) w) with
    | (Ok img, w2) =>
        let p := built_payload location_id (clock w)
                   (set_iter detection_types) img in
        (Ok tt, set_queue (fun q => q ++ [Some p]) (add_log [queued_info p] w2))
    | (Raise e, w2) => (Raise e, w2)
    end.
Proof.
  unfold accumulate_event.
  erewrite bind_Ok; [|reflexivity].
  erewrite bind_Ok; [|apply collect_detections_run].
  simpl. unfold mbind at 1, M_bind at 1, bind at 1.
  destruct (prepare_image _ _ _ _) as [[img|e] w2]; [|done].
  erewrite bind_Ok; [|by apply logger_log_enabled]. reflexivity.
Qed.

(** A run that returns has put exactly one payload at the back of the
    queue, with a picture that went through the whole pipeline. *)
Lemma accumulate_event_Ok (location_id : Z) (frame : Frame)
    (detection_types : list string) (w w' : world) :
  accumulate_event location_id frame detection_types w = (Ok tt, w') ->
  exists img,
    encodes frame 50 img /\
    queue w' = queue w ++
      [Some (built_payload location_id (clock w) (set_iter detection_types) img)].
Proof.
  rewrite accumulate_event_run.
  destruct (prepare_image _ _ _ _) as [[img|e] w2] eqn:Himg; [|done].
  intros [= <-]. exists img.
  destruct (prepare_image_Ok _ _ _ _ _ Himg)
    as (buffer & decoded & Henc & Hb64 & Hdec & _).
  destruct (prepare_image_frame _ _ _ _ _ _ Himg) as (Hq & _).
  split; [by exists buffer, decoded|]. simpl. by rewrite Hq.
Qed.

(** A run that raises leaves the queue as it was. *)
Lemma accumulate_event_Raise (location_id : Z) (frame : Frame)
    (detection_types : list string) (w w' : world) (e : exn) :
  accumulate_event location_id frame detection_types w = (Raise e, w') ->
  queue w' = queue w /\
  prepare_image frame false 50
    (add_log (skip_warnings (set_iter detection_types)) w) = (Raise e, w').
Proof.
  rewrite accumulate_event_run.
  destruct (prepare_image _ _ _ _) as [[img|e'] w2] eqn:Himg; [done|].
  intros [= <- <-]. split; [|done].
  by destruct (prepare_image_frame _ _ _ _ _ _ Himg) as (-> & _).
Qed.

(** With a healthy picture pipeline every event is enqueued, whatever its
    labels. *)
Lemma accumulate_event_succeeds (location_id : Z) (frame : Frame)
    (detection_types : list string) (w : world) (img : string) :
  encodes frame 50 img ->
  open_fault w debug_file = None ->
  write_fault w debug_file = None ->
  exists w', accumulate_event location_id frame detection_types w = (Ok tt, w').
Proof.
  intros Henc Hopen Hwrite. rewrite accumulate_event_run.
  erewrite prepare_image_succeeds by done. eauto.
Qed.

(** *** Claims about the built payload *)

(** C4: when image encoding fails, [accumulate_event] raises the exception
    of the failure and the queue is unchanged; whatever exception leaves [accumulate_event] came out of
    [prepare_image] and left the queue unchanged; and a run that returns has
    enqueued one payload, whose image is the validated Base64 text of the
    encoder's buffer. *)
Theorem accumulate_event_all_or_nothing (location_id : Z) (frame : Frame)
    (detection_types : list string) (w : world) :
  (forall e,
     encoding_error frame 50 = Some e ->
     exists w', accumulate_event location_id frame detection_types w = (Raise e, w') /\
                queue w' = queue w) /\
  (forall e w',
     accumulate_event location_id frame detection_types w = (Raise e, w') ->
     queue w' = queue w /\
     exists w1, prepare_image frame false 50 w1 = (Raise e, w')) /\
  (forall w',
     accumulate_event location_id frame detection_types w = (Ok tt, w') ->
     exists p, queue w' = queue w ++ [Some p] /\
               encodes frame 50 (Payload.image p)).
Proof.
  split; [|split].
  - intros e Hfail. eexists.
    rewrite accumulate_event_run.
    by rewrite (prepare_image_encoding_error _ _ _ _ Hfail).
  - intros e w' Hrun.
    destruct (accumulate_event_Raise _ _ _ _ _ _ Hrun) as [Hq Himg]. eauto.
  - intros w' Hrun.
    destruct (accumulate_event_Ok _ _ _ _ _ Hrun) as (img & Henc & Hq). eauto.
Qed.

(** C5: the [type] of a built payload is 1 when no label of the event is in
    the mapping (the detections list is then empty); otherwise it is the
    code of a recognised label of the event and no recognised label has a
    larger code.  In particular it is 2 when the recognised codes are 0
    and 2. *)
Theorem accumulate_event_type_is_max (location_id : Z) (frame : Frame)
    (detection_types : list string) (w w' : world) :
  accumulate_event location_id frame detection_types w = (Ok tt, w') ->
  exists p,
    queue w' = queue w ++ [Some p] /\
    (Payload.detections p = [] -> Payload.type p = 1) /\
    ((forall l, l ∈ detection_types -> detection_types_mapping_dict l = None) ->
     Payload.detections p = [] /\ Payload.type p = 1) /\
    ((exists l, l ∈ detection_types /\ is_Some (detection_types_mapping_dict l)) ->
     (exists l, l ∈ detection_types /\
                detection_types_mapping_dict l = Some (Payload.type p)) /\
     (forall l code, l ∈ detection_types ->
                     detection_types_mapping_dict l = Some code ->
                     code <= Payload.type p)) /\
    ((forall code, (exists l, l ∈ detection_types /\
                              detection_types_mapping_dict l = Some code) <->
                   code = 0 \/ code = 2) ->
     Payload.type p = 2).
Proof.
  intros Hrun.
  destruct (accumulate_event_Ok _ _ _ _ _ Hrun) as (img & _ & Hq).
  eexists. split; [exact Hq|]. simpl. clear Hrun Hq.
  set (labels := set_iter detection_types).
  assert (Hcodes : forall code,
             code ∈ map Detection.type (recognised labels) <->
             exists l, l ∈ detection_types /\
                       detection_types_mapping_dict l = Some code).
  { intros code. rewrite recognised_types, list_elem_of_omap.
    unfold labels. by setoid_rewrite set_iter_elem. }
  assert (Hsome : (exists l, l ∈ detection_types /\
                             is_Some (detection_types_mapping_dict l)) ->
            (exists l, l ∈ detection_types /\
               detection_types_mapping_dict l =
                 Some (py_max (map Detection.type (recognised labels)) 1)) /\
            (forall l code, l ∈ detection_types ->
               detection_types_mapping_dict l = Some code ->
               code <= py_max (map Detection.type (recognised labels)) 1)).
  { intros (l & Hl & code & Hc). split.
    - apply Hcodes, py_max_elem. intros Hnil.
      assert (Hin : code ∈ map Detection.type (recognised labels))
        by (apply Hcodes; eauto).
      rewrite Hnil in Hin. inversion Hin.
    - intros l' code' Hl' Hc'. apply py_max_upper, Hcodes. eauto. }
  split; [by intros ->|]. split; [|split; [exact Hsome|]].
  - intros Hnone.
    assert (Hnil : recognised labels = []).
    { destruct (recognised labels) as [|d ds] eqn:Hrec; [done|].
      assert (Hd : d ∈ recognised labels) by (rewrite Hrec; left).
      apply elem_of_recognised in Hd as (l & code & Hl & Hc & _).
      unfold labels in Hl. rewrite set_iter_elem in Hl.
      rewrite (Hnone l Hl) in Hc. discriminate. }
    by rewrite Hnil.
  - intros Hset.
    destruct Hsome as [(l & Hl & Hc) Hub].
    { destruct (proj2 (Hset 2)) as (l & Hl & Hc); [by right|]. exists l.
      by rewrite Hc. }
    destruct (proj1 (Hset _) (ex_intro _ l (conj Hl Hc))) as [Hzero|Htwo]; [|done].
    destruct (proj2 (Hset 2)) as (l2 & Hl2 & Hc2); [by right|].
    specialize (Hub l2 2 Hl2 Hc2). lia.
Qed.

(** C6: a location id of 0 is enqueued as 1, and every other location id
    is enqueued as it came. *)
Theorem accumulate_event_location_id (location_id : Z) (frame : Frame)
    (detection_types : list string) (w w' : world) :
  accumulate_event location_id frame detection_types w = (Ok tt, w') ->
  exists p,
    queue w' = queue w ++ [Some p] /\
    (location_id = 0 -> Payload.location_id p = 1) /\
    (location_id <> 0 -> Payload.location_id p = location_id).
Proof.
  intros Hrun.
  destruct (accumulate_event_Ok _ _ _ _ _ Hrun) as (img & _ & Hq).
  eexists. split; [exact Hq|]. simpl.
  destruct (Z.eqb_spec location_id 0); split; intros; congruence.
Qed.

(** [prepare_image] only appends to the log. *)
Lemma prepare_image_log (frame : Frame) (live_stream : bool) (q : Z)
    (w w' : world) (r : result string) :
  prepare_image frame live_stream q w = (r, w') ->
  exists rs, log w' = log w ++ rs.
Proof.
  unfold prepare_image, prepare_image_body. intros Hrun.
  destruct live_stream; run_py; unfold set_files, set_log; simpl;
    repeat rewrite <- app_assoc; eauto;
    by exists []; rewrite app_nil_r.
Qed.

(** The log of a run that returns holds the warning of every skipped
    label. *)
Lemma accumulate_event_warnings (location_id : Z) (frame : Frame)
    (detection_types : list string) (w w' : world) (r : result unit) :
  accumulate_event location_id frame detection_types w = (r, w') ->
  forall l, l ∈ detection_types -> detection_types_mapping_dict l = None ->
            skip_warning l ∈ log w'.
Proof.
  rewrite accumulate_event_run. intros Hrun l Hl Hc.
  assert (Hw : skip_warning l ∈ skip_warnings (set_iter detection_types))
    by (apply elem_of_skip_warnings; [by apply set_iter_elem|done]).
  destruct (prepare_image _ _ _ _) as [[img|e] w2] eqn:Himg;
    destruct (prepare_image_log _ _ _ _ _ _ Himg) as [rs Hlog];
    injection Hrun as <- <-; simpl; rewrite Hlog; simpl;
    rewrite !elem_of_app; auto.
Qed.

(** What [prepare_image] returns or raises does not depend on the log. *)
Lemma prepare_image_result_log (frame : Frame) (q : Z) (w : world)
    (rs : list log_record) :
  fst (prepare_image frame false q (add_log rs w)) =
  fst (prepare_image frame false q w).
Proof.
  destruct (encoding_error frame q) as [e|] eqn:Herr.
  { by rewrite !(prepare_image_encoding_error _ _ _ _ Herr). }
  apply encoding_error_None in Herr as [img Henc].
  rewrite !(prepare_image_encoded _ _ _ _ Henc).
  change (open_fault (add_log rs w)) with (open_fault w).
  change (write_fault (add_log rs w)) with (write_fault w).
  destruct (open_fault w debug_file); [done|].
  by destruct (write_fault w debug_file).
Qed.

(** [accumulate_event] returns when [prepare_image] does, and raises what
    it raises: the labels have no part in it. *)
Lemma accumulate_event_result (location_id : Z) (frame : Frame)
    (detection_types : list string) (w : world) :
  fst (accumulate_event location_id frame detection_types w) =
    match fst (prepare_image frame false 50 w) with
    | Ok _ => Ok tt
    | Raise e => Raise e
    end.
Proof.
  rewrite accumulate_event_run.
  rewrite <- (prepare_image_result_log frame 50 w
                (skip_warnings (set_iter detection_types))).
  by destruct (prepare_image _ _ _ _) as [[img|e] w2].
Qed.

(** The labels of the mapping and their entries, written out. *)
Lemma known_labels (l : string) :
  known l = true <-> l ∈ ["No_Gloves"; "No_Sleeves"; "No_Helmet"].
Proof.
  unfold known. rewrite !elem_of_cons, elem_of_nil. split.
  - destruct (detection_types_mapping_dict l) as [code|] eqn:Hc; [|done].
    apply mapping_dict_spec in Hc. intros _. tauto.
  - by intros [-> | [-> | [-> | []]]].
Qed.

Lemma entry_of_known (l : string) :
  known l = true ->
  (l, entry_of l) ∈ [ ("No_Gloves", Detection.mk 0 "no gloves");
                      ("No_Sleeves", Detection.mk 1 "no sleeves");
                      ("No_Helmet", Detection.mk 2 "no helmet") ].
Proof.
  intros Hk. apply known_labels in Hk.
  rewrite !elem_of_cons, elem_of_nil in Hk. rewrite !elem_of_cons.
  destruct Hk as [-> | [-> | [-> | []]]];
    [left | right; left | right; right; left]; reflexivity.
Qed.

(** C7: the labels outside the mapping have no part in whether the run
    returns: it returns, or raises, as the run on the other labels alone
    does.  The detections of a built payload follow, entry by entry, a
    duplicate-free enumeration of exactly those labels of the event that are
    among [No_Gloves], [No_Sleeves] and [No_Helmet]; the entry of
    [No_Gloves] is [(0, "no gloves")], that of [No_Sleeves] is
    [(1, "no sleeves")] and that of [No_Helmet] is [(2, "no helmet")].
    Every other label of the event has its warning in the log. *)
Theorem accumulate_event_detections (location_id : Z) (frame : Frame)
    (detection_types : list string) (w : world) :
  fst (accumulate_event location_id frame detection_types w) =
  fst (accumulate_event location_id frame
         (filter (fun l => l ∈ ["No_Gloves"; "No_Sleeves"; "No_Helmet"])
                 detection_types) w) /\
  (forall w',
     accumulate_event location_id frame detection_types w = (Ok tt, w') ->
     exists p labels,
       queue w' = queue w ++ [Some p] /\
       NoDup labels /\
       (forall l, l ∈ labels <->
                  l ∈ detection_types /\
                  l ∈ ["No_Gloves"; "No_Sleeves"; "No_Helmet"]) /\
       Forall2 (fun l d =>
                  (l, d) ∈ [ ("No_Gloves", Detection.mk 0 "no gloves");
                             ("No_Sleeves", Detection.mk 1 "no sleeves");
                             ("No_Helmet", Detection.mk 2 "no helmet") ])
               labels (Payload.detections p) /\
       (forall l, l ∈ detection_types ->
                  l ∉ ["No_Gloves"; "No_Sleeves"; "No_Helmet"] ->
                  mk_log WARNING [Lit "Detection type '"; FmtStr l;
                                  Lit "' not found in mapping. Skipping."]
                    ∈ log w')).
Proof.
  split.
  - by rewrite !accumulate_event_result.
  - intros w' Hrun.
    destruct (accumulate_event_Ok _ _ _ _ _ Hrun) as (img & _ & Hq).
    eexists. exists (filter (fun l => known l) (set_iter detection_types)).
    split; [exact Hq|]. simpl. split; [|split; [|split]].
    + apply NoDup_filter, set_iter_NoDup.
    + intros l. rewrite list_elem_of_filter, set_iter_elem, <- known_labels.
      destruct (known l); simpl; split; intros [? ?]; split; done.
    + rewrite recognised_map. apply Forall2_fmap_r, Forall_Forall2_diag.
      apply Forall_forall. intros l [Hk _]%list_elem_of_filter.
      apply entry_of_known. by destruct (known l).
    + intros l Hl Hout.
      apply (accumulate_event_warnings _ _ _ _ _ _ Hrun l Hl).
      rewrite <- known_labels in Hout. unfold known in Hout.
      by destruct (detection_types_mapping_dict l).
Qed.

(** The three details strings the payload can carry. *)
Lemma detection_details (l : string) (code : Z) :
  detection_types_mapping_dict l = Some code ->
  lower (replace "_" " " l) =
    (if code =? 0 then "no gloves" else if code =? 1 then "no sleeves"
     else "no helmet").
Proof.
  rewrite mapping_dict_spec. by intros [[-> ->]|[[-> ->]|[-> ->]]].
Qed.

(** C9: the [type] of a built payload and the [type] of each of its
    detections are among 0, 1 and 2. *)
Theorem accumulate_event_codes_in_range (location_id : Z) (frame : Frame)
    (detection_types : list string) (w w' : world) :
  accumulate_event location_id frame detection_types w = (Ok tt, w') ->
  exists p,
    queue w' = queue w ++ [Some p] /\
    Payload.type p ∈ [0; 1; 2] /\
    Forall (fun d => Detection.type d ∈ [0; 1; 2]) (Payload.detections p).
Proof.
  intros Hrun.
  destruct (accumulate_event_Ok _ _ _ _ _ Hrun) as (img & _ & Hq).
  eexists. split; [exact Hq|]. simpl.
  set (labels := set_iter detection_types).
  assert (Hrange : forall z : Z, 0 <= z <= 2 -> z ∈ [0; 1; 2]).
  { intros z Hz. rewrite !elem_of_cons. lia. }
  assert (Hdet : Forall (fun d => Detection.type d ∈ [0; 1; 2])
                        (recognised labels)).
  { apply Forall_forall. intros d Hd.
    apply elem_of_recognised in Hd as (l & code & _ & Hc & Hd). subst d.
    simpl. eapply Hrange, mapping_dict_range, Hc. }
  split; [|exact Hdet].
  destruct (recognised labels) as [|d ds] eqn:Hrec; [by apply Hrange|].
  assert (Hin : py_max (map Detection.type (d :: ds)) 1
                ∈ map Detection.type (d :: ds)) by (by apply py_max_elem).
  apply list_elem_of_fmap in Hin as (d' & -> & Hd').
  by eapply (proj1 (Forall_forall _ _) Hdet).
Qed.

(** C10: a negative location id passes through as it came; the only value
    [accumulate_event] rewrites is 0. *)
Theorem accumulate_event_negative_location_id (location_id : Z)
    (frame : Frame) (detection_types : list string) (w w' : world) :
  location_id < 0 ->
  accumulate_event location_id frame detection_types w = (Ok tt, w') ->
  exists p,
    queue w' = queue w ++ [Some p] /\ Payload.location_id p = location_id.
Proof.
  intros Hneg Hrun.
  destruct (accumulate_event_Ok _ _ _ _ _ Hrun) as (img & _ & Hq).
  eexists. split; [exact Hq|]. simpl.
  destruct (Z.eqb_spec location_id 0); [lia|done].
Qed.

End BuilderProperties.

Section WorkerProperties.
Context `{MarkupLibs}.

(** *** parse_json_or_html *)

(** The function returns the document, or the fallback for an exception
    that is a [json.JSONDecodeError]; any other exception of
    [response.json()] passes through, with nothing logged. *)
Lemma parse_json_or_html_run (response : response) (w : world) :
  parse_json_or_html response w =
    match json_loads (text response) with
    | Ok v => (Ok v, w)
    | Raise e =>
        if isinstance_JSONDecodeError e
        then (Ok (html_fallback (text response)), add_log [not_json_warning] w)
        else (Raise e, w)
    end.
Proof.
  unfold parse_json_or_html, response_json, try_except, lift.
  destruct (json_loads (text response)) as [v|e]; [done|].
  destruct (isinstance_JSONDecodeError e); [|done].
  erewrite bind_Ok; [|by apply logger_log_enabled]. reflexivity.
Qed.

(** *** raise_for_status *)

Lemma append_nonempty (s t : string) : t <> "" -> s +:+ t <> "".
Proof. destruct s; [done|]. intros _. discriminate. Qed.

(** [raise_for_status] raises exactly for the statuses 400 to 599. *)
Lemma http_error_msg_empty (response : response) :
  http_error_msg response = "" <->
  ~ (400 <= status_code response < 600).
Proof.
  unfold http_error_msg.
  destruct (Z.leb_spec 400 (status_code response));
    destruct (Z.ltb_spec (status_code response) 500);
    destruct (Z.leb_spec 500 (status_code response));
    destruct (Z.ltb_spec (status_code response) 600); simpl;
    try lia; split; try lia; try done; intros Hmsg; exfalso;
    by apply append_nonempty in Hmsg.
Qed.

Lemma status_test (r : response) :
  (400 <=? status_code r) && (status_code r <? 600) = true <->
  400 <= status_code r < 600.
Proof. rewrite andb_true_iff, Z.leb_le, Z.ltb_lt. done. Qed.

(** The text of the [HTTPError], written out. *)
Lemma http_error_msg_status (r : response) :
  400 <= status_code r < 600 -> http_error_msg r = status_error_text r.
Proof.
  intros Hst. unfold http_error_msg, status_error_text.
  destruct (Z.leb_spec 400 (status_code r)); [|lia].
  destruct (Z.ltb_spec (status_code r) 500); simpl; [done|].
  destruct (Z.leb_spec 500 (status_code r)); [|lia].
  destruct (Z.ltb_spec (status_code r) 600); [done|lia].
Qed.

(** What [raise_for_status] does, by the status. *)
Lemma raise_for_status_run (r : response) (w : world) :
  raise_for_status r w =
    if (400 <=? status_code r) && (status_code r <? 600)
    then (Raise (mk_exn (RequestException HTTPError) (status_error_text r)), w)
    else (Ok tt, w).
Proof.
  unfold raise_for_status.
  destruct ((400 <=? status_code r) && (status_code r <? 600)) eqn:Hst.
  - apply status_test in Hst.
    destruct (String.eqb_spec (http_error_msg r) "") as [Hmsg|Hmsg].
    + by apply http_error_msg_empty in Hmsg.
    + by rewrite http_error_msg_status.
  - assert (Hmsg : http_error_msg r = "").
    { apply http_error_msg_empty. intros Hin. apply status_test in Hin.
      by rewrite Hin in Hst. }
    by rewrite Hmsg.
Qed.

(** *** One pass through the loop *)

Lemma headers_written_out : headers = bearer_headers.
Proof. reflexivity. Qed.

(** What the worker does with a response it received. *)
Lemma accept_response_run (r : response) (w : world) :
  (raise_for_status r;;
   logger_info [Lit "Event pushed successfully: "; FmtInt (status_code r)];;
   parsed_response ← parse_json_or_html r;
   logger_debug [Lit "Response from dashboard: "; FmtValue parsed_response]) w =
    if (400 <=? status_code r) && (status_code r <? 600)
    then (Raise (mk_exn (RequestException HTTPError) (status_error_text r)), w)
    else
      match json_loads (text r) with
      | Ok _ => (Ok tt, add_log [pushed_info (status_code r)] w)
      | Raise e =>
          if isinstance_JSONDecodeError e
          then (Ok tt, add_log [pushed_info (status_code r); not_json_warning] w)
          else (Raise e, add_log [pushed_info (status_code r)] w)
      end.
Proof.
  destruct ((400 <=? status_code r) && (status_code r <? 600)) eqn:Hst.
  { erewrite bind_Raise; [done|]. by rewrite raise_for_status_run, Hst. }
  erewrite bind_Ok; [|by rewrite raise_for_status_run, Hst].
  erewrite bind_Ok; [|by apply logger_log_enabled].
  change (mk_log INFO [Lit "Event pushed successfully: "; FmtInt (status_code r)])
    with (pushed_info (status_code r)).
  destruct (json_loads (text r)) as [v|e] eqn:Hjson.
  { erewrite bind_Ok; [|by rewrite parse_json_or_html_run, Hjson]. done. }
  destruct (isinstance_JSONDecodeError e) eqn:Hdec.
  - erewrite bind_Ok; [|by rewrite parse_json_or_html_run, Hjson, Hdec].
    by rewrite logger_debug_silent, add_log_add_log.
  - erewrite bind_Raise; [done|].
    by rewrite parse_json_or_html_run, Hjson, Hdec.
Qed.

(** The pass for a payload issues its request, and then ends as the
    outcome of the submission decides. *)
Lemma push_event_iteration_payload (session : Session) (p : Payload.t)
    (w : world) :
  push_event_iteration session (Some p) w =
    match pass_end_of (post session (length (sent w)) (dashboard_request p)) with
    | Goes rs => (Some (Ok Continue), add_log rs (sent_to p w))
    | Dies e rs => (Some (Raise e), add_log rs (sent_to p w))
    | Hangs => (None, sent_to p w)
    end.
Proof.
  unfold push_event_iteration, deliver, try_except_W, session_post.
  unfold mbind at 1, W_bind at 1. unfold mbind at 1, W_bind at 1.
  change (post_request DASHBOARD_LINK p headers) with (dashboard_request p).
  change (set_sent (fun rs => rs ++ [dashboard_request p]) w) with (sent_to p w).
  unfold pass_end_of.
  destruct (post session (length (sent w)) (dashboard_request p))
    as [r|k msg|]; [| |done].
  - unfold returns at 1. rewrite accept_response_run.
    destruct ((400 <=? status_code r) && (status_code r <? 600)); simpl.
    { unfold returns. erewrite bind_Ok; [|by apply logger_log_enabled]. done. }
    destruct (json_loads (text r)) as [v|e]; simpl; [done|].
    destruct (isinstance_JSONDecodeError e) eqn:Hjson; simpl; [done|].
    destruct (isinstance_RequestException e) eqn:Hreq; simpl; [|done].
    unfold returns. erewrite bind_Ok; [|by apply logger_log_enabled].
    simpl. by rewrite add_log_add_log.
  - simpl. unfold returns. erewrite bind_Ok; [|by apply logger_log_enabled]. done.
Qed.

Lemma push_event_iteration_sentinel (session : Session) (w : world) :
  push_event_iteration session None w =
    (Some (Ok Break),
     add_log [mk_log INFO [Lit "Received sentinel value. Stopping push_event."]] w).
Proof.
  unfold push_event_iteration, try_except_W, returns.
  erewrite bind_Ok; [|by apply logger_log_enabled]. reflexivity.
Qed.

(** No pass touches the queue: the item removed by [get] is the only
    change, so the list [push_event_loop] recurses on is the content of the
    queue at every pass. *)
Lemma push_event_iteration_queue (session : Session)
    (event : option Payload.t) (w w' : world) (r : option (result flow)) :
  push_event_iteration session event w = (r, w') -> queue w' = queue w.
Proof.
  destruct event as [p|].
  - rewrite push_event_iteration_payload.
    destruct (pass_end_of _); by intros [= _ <-].
  - rewrite push_event_iteration_sentinel. by intros [= _ <-].
Qed.

(** *** The loop *)

Lemma push_event_loop_payload (session : Session) (p : Payload.t)
    (events : list (option Payload.t)) (w : world) :
  push_event_loop session (Some p :: events) w =
    let w0 := sent_to p (set_queue (fun _ => events) w) in
    match pass_end_of (post session (length (sent w)) (dashboard_request p)) with
    | Goes rs => push_event_loop session events (add_log rs w0)
    | Dies e rs => (Crashed e, add_log rs w0)
    | Hangs => (Stalled, w0)
    end.
Proof.
  cbn [push_event_loop]. rewrite push_event_iteration_payload. cbn zeta.
  change (sent (set_queue (fun _ => events) w)) with (sent w).
  by destruct (pass_end_of _).
Qed.

Lemma push_event_loop_sentinel (session : Session)
    (events : list (option Payload.t)) (w : world) :
  push_event_loop session (None :: events) w =
  (Returned, add_log sentinel_info (set_queue (fun _ => events) w)).
Proof.
  cbn [push_event_loop]. rewrite push_event_iteration_sentinel.
  unfold logger_info. rewrite logger_log_enabled by done.
  simpl. by rewrite add_log_add_log.
Qed.



Lemma before_sentinel_elem (events : list (option Payload.t)) (p : Payload.t) :
  p ∈ before_sentinel events -> Some p ∈ events.
Proof.
  induction events as [|[p'|] events IH]; simpl; [by inversion 1| |by inversion 1].
  rewrite !elem_of_cons. intros [->|Hp]; [by left|right; by apply IH].
Qed.

(** Whatever the session does, the requests of a run are those of the
    first payloads in front of the sentinel, in their order. *)
Lemma push_event_loop_sent (session : Session)
    (events : list (option Payload.t)) (w w' : world) (t : termination) :
  push_event_loop session events w = (t, w') ->
  exists k, sent w' = sent w
                      ++ map dashboard_request (take k (before_sentinel events)).
Proof.
  revert w. induction events as [|[p|] events IH]; intros w.
  - simpl. intros [= <- <-]. exists O. by rewrite app_nil_r.
  - rewrite push_event_loop_payload. simpl.
    destruct (pass_end_of _) as [rs|e rs|].
    + intros Hrun. destruct (IH _ Hrun) as [k Hk]. exists (S k).
      rewrite Hk. simpl. by rewrite <- app_assoc.
    + intros [= <- <-]. exists 1%nat. simpl. by destruct (before_sentinel events).
    + intros [= <- <-]. exists 1%nat. simpl. by destruct (before_sentinel events).
  - rewrite push_event_loop_sentinel. intros [= <- <-]. exists O.
    simpl. by rewrite app_nil_r.
Qed.



(** *** Claims about the worker *)


Lemma submission_error_fails (o : http_outcome) :
  submission_fails o <-> is_Some (submission_error o).
Proof.
  destruct o as [r|k msg|]; simpl.
  - rewrite <- status_test.
    destruct ((400 <=? status_code r) && (status_code r <? 600)).
    + split; [by eexists|done].
    + split; [done|]. by intros [? [=]].
  - split; [by eexists|done].
  - split; [done|]. by intros [? [=]].
Qed.

Lemma submission_error_goes (o : http_outcome) (e : exn) :
  submission_error o = Some e -> pass_end_of o = Goes [push_error e].
Proof.
  destruct o as [r|k msg|]; simpl; [|by intros [= <-]|done].
  destruct ((400 <=? status_code r) && (status_code r <? 600)); [|done].
  by intros [= <-].
Qed.

Lemma push_event_iteration_sent (session : Session) (p : Payload.t)
    (w w' : world) (r : option (result flow)) :
  push_event_iteration session (Some p) w = (r, w') ->
  sent w' = sent w ++ [dashboard_request p].
Proof.
  rewrite push_event_iteration_payload.
  destruct (pass_end_of _); by intros [= _ <-].
Qed.

(** C2 (as the code has it): when the submission of the payload at the head
    of the queue fails, by an exception of [session.post] or a status from
    400 to 599, the pass logs one error record, with that exception, and
    goes back to the head of the loop; the payload was sent once and is not
    put back, so the run goes on exactly as a run on the rest of the queue,
    and the request of the next payload is issued next.  A response with
    any other status is logged as a success first. *)
Theorem push_event_failure_isolated (session : Session) (w : world)
    (p : Payload.t) (rest : list (option Payload.t)) :
  queue w = Some p :: rest ->
  (submission_fails (post session (length (sent w)) (dashboard_request p)) ->
   exists e w1,
     submission_error (post session (length (sent w)) (dashboard_request p))
       = Some e /\
     push_event_iteration session (Some p) (set_queue (fun _ => rest) w)
       = (Some (Ok Continue), w1) /\
     log w1 = log w ++ [push_error e] /\
     sent w1 = sent w ++ [dashboard_request p] /\
     queue w1 = rest /\
     push_event session w = push_event session w1 /\
     (forall p' rest', rest = Some p' :: rest' ->
        exists r2 w2,
          push_event_iteration session (Some p') (set_queue (fun _ => rest') w1)
            = (r2, w2) /\
          sent w2 = sent w ++ [dashboard_request p; dashboard_request p'])) /\
  (forall r,
     post session (length (sent w)) (dashboard_request p) = Responded r ->
     ~ (400 <= status_code r < 600) ->
     exists r1 w1 rs,
       push_event_iteration session (Some p) (set_queue (fun _ => rest) w)
         = (Some r1, w1) /\
       log w1 = log w ++ pushed_info (status_code r) :: rs).
Proof.
  intros Hq. split.
  - intros Hfail. apply submission_error_fails in Hfail as [e He].
    pose proof (submission_error_goes _ _ He) as Hgoes.
    set (w1 := add_log [push_error e] (sent_to p (set_queue (fun _ => rest) w))).
    assert (Hpass : push_event_iteration session (Some p)
                      (set_queue (fun _ => rest) w) = (Some (Ok Continue), w1)).
    { rewrite push_event_iteration_payload.
      change (sent (set_queue (fun _ => rest) w)) with (sent w).
      by rewrite Hgoes. }
    exists e, w1. repeat split; try done.
    + unfold push_event at 1. rewrite Hq, push_event_loop_payload, Hgoes. done.
    + intros p' rest' ->.
      destruct (push_event_iteration session (Some p')
                  (set_queue (fun _ => rest') w1)) as [r2 w2] eqn:Hnext.
      exists r2, w2. split; [done|].
      apply push_event_iteration_sent in Hnext. rewrite Hnext. simpl.
      by rewrite <- app_assoc.
  - intros r Hr Hout.
    rewrite push_event_iteration_payload.
    change (sent (set_queue (fun _ => rest) w)) with (sent w).
    rewrite Hr. unfold pass_end_of.
    destruct ((400 <=? status_code r) && (status_code r <? 600)) eqn:Hst.
    { by apply status_test in Hst. }
    destruct (json_loads (text r)) as [v|e]; [by eexists _, _, []|].
    destruct (isinstance_JSONDecodeError e); [by eexists _, _, [_]|].
    destruct (isinstance_RequestException e); by eexists _, _, _.
Qed.


End WorkerProperties.

(** * Runs on the concrete platform *)

Section Runs.
#[local] Existing Instances Sample.image_libs Sample.first_occurrence
  Sample.markup_libs.

(** The repeated label gives one entry, the unknown one none. *)
Example helmet_event_payload :
  fst Sample.helmet_event = Ok tt /\
  queue (snd Sample.helmet_event) =
    [Some (Payload.mk 1 "2024-05-17 08:30:00" 2
             [Detection.mk 2 "no helmet"; Detection.mk 0 "no gloves"]
             "iVBORw==")].
Proof. by vm_compute. Qed.

(** C3: the debug write is not isolated.  On a frame that encodes and
    validates, run where [encoded_image.txt] cannot be opened for writing,
    [prepare_image] logs the error and raises the [OSError] instead of
    returning the Base64 string. *)
Theorem prepare_image_debug_write_raises :
  encodes Sample.frame 50 "iVBORw==" /\
  prepare_image Sample.frame false 50 Sample.read_only =
    (Raise Sample.permission_denied,
     add_log
       [ mk_log INFO [Lit "Image successfully encoded and validated as Base64."];
         prepare_image_error Sample.permission_denied ]
       Sample.read_only).
Proof.
  assert (Henc : encodes Sample.frame 50 "iVBORw==")
    by (exists Sample.frame, Sample.frame; by vm_compute).
  split; [exact Henc|]. by apply (prepare_image_open_fault _ _ _ _ _ Henc).
Qed.

Lemma accumulate_event_type_is_max_witness :
  Sample.gloves_helmet_event = (Ok tt, snd Sample.gloves_helmet_event) /\
  exists p,
    queue (snd Sample.gloves_helmet_event) = queue Sample.start ++ [Some p] /\
    Payload.type p = 2.
Proof.
  assert (Hrun : Sample.gloves_helmet_event = (Ok tt, snd Sample.gloves_helmet_event))
    by (vm_compute; reflexivity).
  split; [exact Hrun|].
  destruct (accumulate_event_type_is_max (H:=Sample.image_libs) 7 Sample.frame
              ["No_Gloves"; "No_Helmet"] Sample.start _ Hrun)
    as (p & Hq & _ & _ & _ & Htwo).
  exists p. split; [exact Hq|]. apply Htwo. intros code. split.
  - intros (l & Hl & Hc). apply mapping_dict_spec in Hc.
    rewrite !elem_of_cons in Hl.
    destruct Hl as [-> | [-> | Hl]]; [| |by inversion Hl];
      destruct Hc as [[? ->]|[[? ->]|[? ->]]]; auto; discriminate.
  - intros [-> | ->]; [exists "No_Gloves"|exists "No_Helmet"];
      (split; [rewrite !elem_of_cons; auto|reflexivity]).
Defined.

Lemma accumulate_event_location_id_witness :
  Sample.helmet_event = (Ok tt, snd Sample.helmet_event) /\
  exists p,
    queue (snd Sample.helmet_event) = queue Sample.start ++ [Some p] /\
    Payload.location_id p = 1.
Proof.
  assert (Hrun : Sample.helmet_event = (Ok tt, snd Sample.helmet_event))
    by (vm_compute; reflexivity).
  split; [exact Hrun|].
  destruct (accumulate_event_location_id (H:=Sample.image_libs) 0 Sample.frame
              ["No_Helmet"; "No_Helmet"; "No_Gloves"; "Unknown_Thing"]
              Sample.start _ Hrun) as (p & Hq & Hzero & _).
  exists p. split; [exact Hq|]. by apply Hzero.
Defined.

Lemma accumulate_event_codes_in_range_witness :
  Sample.helmet_event = (Ok tt, snd Sample.helmet_event) /\
  exists p,
    queue (snd Sample.helmet_event) = queue Sample.start ++ [Some p] /\
    Payload.type p ∈ [0; 1; 2] /\
    Forall (fun d => Detection.type d ∈ [0; 1; 2]) (Payload.detections p).
Proof.
  assert (Hrun : Sample.helmet_event = (Ok tt, snd Sample.helmet_event))
    by (vm_compute; reflexivity).
  split; [exact Hrun|]. 
  exact (accumulate_event_codes_in_range (H:=Sample.image_libs) 0 Sample.frame
           ["No_Helmet"; "No_Helmet"; "No_Gloves"; "Unknown_Thing"]
           Sample.start _ Hrun).
Defined.

Lemma accumulate_event_negative_location_id_witness :
  -5 < 0 /\
  Sample.negative_event = (Ok tt, snd Sample.negative_event) /\
  exists p,
    queue (snd Sample.negative_event) = queue Sample.start ++ [Some p] /\
    Payload.location_id p = -5.
Proof.
  assert (Hneg : -5 < 0) by lia.
  assert (Hrun : Sample.negative_event = (Ok tt, snd Sample.negative_event))
    by (vm_compute; reflexivity).
  split; [exact Hneg|]. split; [exact Hrun|].
  exact (accumulate_event_negative_location_id (H:=Sample.image_libs) (-5) Sample.frame
           ["No_Sleeves"] Sample.start _ Hneg Hrun).
Defined.

Lemma accumulate_event_detections_witness :
  Sample.helmet_event = (Ok tt, snd Sample.helmet_event) /\
  exists p labels,
    queue (snd Sample.helmet_event) = queue Sample.start ++ [Some p] /\
    NoDup labels /\
    (forall l, l ∈ labels <->
               l ∈ ["No_Helmet"; "No_Helmet"; "No_Gloves"; "Unknown_Thing"] /\
               l ∈ ["No_Gloves"; "No_Sleeves"; "No_Helmet"]) /\
    Forall2 (fun l d =>
               (l, d) ∈ [ ("No_Gloves", Detection.mk 0 "no gloves");
                          ("No_Sleeves", Detection.mk 1 "no sleeves");
                          ("No_Helmet", Detection.mk 2 "no helmet") ])
            labels (Payload.detections p) /\
    (forall l, l ∈ ["No_Helmet"; "No_Helmet"; "No_Gloves"; "Unknown_Thing"] ->
               l ∉ ["No_Gloves"; "No_Sleeves"; "No_Helmet"] ->
               mk_log WARNING [Lit "Detection type '"; FmtStr l;
                               Lit "' not found in mapping. Skipping."]
                 ∈ log (snd Sample.helmet_event)).
Proof.
  assert (Hrun : Sample.helmet_event = (Ok tt, snd Sample.helmet_event))
    by (vm_compute; reflexivity).
  split; [exact Hrun|].
  exact (proj2 (accumulate_event_detections (H:=Sample.image_libs) 0 Sample.frame
                  ["No_Helmet"; "No_Helmet"; "No_Gloves"; "Unknown_Thing"]
                  Sample.start) _ Hrun).
Defined.



(** On a dashboard that accepts the connection of the second request and
    never answers, the worker never reaches the sentinel either. *)
Example silent_run :
  let run := push_event Sample.silent Sample.stop_queue in
  fst run = Stalled /\
  sent (snd run) = map dashboard_request [Sample.payload 1; Sample.payload 2] /\
  queue (snd run) = [None; Some (Sample.payload 3)].
Proof. cbv zeta. repeat split; vm_compute; reflexivity. Qed.

Lemma push_event_failure_isolated_witness :
  exists e w1,
    submission_error
      (post Sample.flaky (length (sent Sample.stop_queue))
         (dashboard_request (Sample.payload 1))) = Some e /\
    push_event_iteration Sample.flaky (Some (Sample.payload 1))
      (set_queue (fun _ => [Some (Sample.payload 2); None;
                            Some (Sample.payload 3)]) Sample.stop_queue)
      = (Some (Ok Continue), w1) /\
    log w1 = log Sample.stop_queue ++ [push_error e] /\
    sent w1 = sent Sample.stop_queue ++ [dashboard_request (Sample.payload 1)] /\
    queue w1 = [Some (Sample.payload 2); None; Some (Sample.payload 3)] /\
    push_event Sample.flaky Sample.stop_queue = push_event Sample.flaky w1 /\
    (forall p' rest',
       [Some (Sample.payload 2); None; Some (Sample.payload 3)]
         = Some p' :: rest' ->
       exists r2 w2,
         push_event_iteration Sample.flaky (Some p')
           (set_queue (fun _ => rest') w1) = (r2, w2) /\
         sent w2 = sent Sample.stop_queue
                   ++ [dashboard_request (Sample.payload 1); dashboard_request p']).
Proof.
  apply (proj1 (push_event_failure_isolated Sample.flaky Sample.stop_queue
                  (Sample.payload 1)
                  [Some (Sample.payload 2); None; Some (Sample.payload 3)]
                  eq_refl)).
  exact I.
Defined.

(** The failure of the run above is the [ConnectionError] of the first
    request, and it is what the error record shows. *)
Example connection_error_logged :
  let pass := push_event_iteration Sample.flaky (Some (Sample.payload 1))
                (set_queue (fun _ => [None]) Sample.not_modified_queue) in
  fst pass = Some (Ok Continue) /\
  log (snd pass) =
    [ mk_log ERROR
        [Lit "Error pushing event to dashboard: ";
         FmtExn (mk_exn (RequestException ConnectionError) "Connection refused")] ].
Proof. cbv zeta. split; vm_compute; reflexivity. Qed.

(** C2, as stated, fails for a status outside 200 to 299 that
    [raise_for_status] accepts: the response 304 is not a 2xx response, yet
    the pass logs the submission as a success and no error record. *)
Lemma push_event_not_modified_logged_as_success :
  let session := Sample.answers 304 "Not Modified" "" in
  let pass := push_event_iteration session (Some (Sample.payload 1))
                (set_queue (fun _ => [None]) Sample.not_modified_queue) in
  (match post session 0 (dashboard_request (Sample.payload 1)) with
   | Responded r => ~ (200 <= status_code r < 300)
   | Failed _ _ => True
   | NoAnswer => False
   end) /\
  fst pass = Some (Ok Continue) /\
  log (snd pass) =
    [ mk_log INFO [Lit "Event pushed successfully: "; FmtInt 304];
      not_json_warning ] /\
  ~ (exists e, push_error e ∈ log (snd pass)).
Proof.
  cbv zeta. split; [simpl; lia|]. split; [reflexivity|].
  assert (Hlog : log (push_event_iteration (Sample.answers 304 "Not Modified" "")
                        (Some (Sample.payload 1))
                        (set_queue (fun _ => [None]) Sample.not_modified_queue)).2 =
                 [ mk_log INFO [Lit "Event pushed successfully: "; FmtInt 304];
                   not_json_warning ])
    by (vm_compute; reflexivity).
  split; [exact Hlog|]. rewrite Hlog. intros [e He].
  rewrite !elem_of_cons in He.
  destruct He as [He | [He | He]]; [discriminate He|discriminate He|].
  inversion He.
Qed.


(** Where simplejson is importable, the exception of [response.json()] for
    a body that is not JSON is no [json.JSONDecodeError] either: the
    fallback is not reached, and the loop of the worker logs the exception
    as a failed submission. *)
Example simplejson_markup :
  parse_json_or_html (H:=Sample.simplejson_libs)
    (mk_response 200 "OK" DASHBOARD_LINK "<p>down</p>") Sample.start =
  (Raise (mk_exn (RequestException (JSONDecodeError false))
            "Expecting value: line 1 column 1 (char 0)"),
   Sample.start).
Proof. vm_compute. reflexivity. Qed.

Example simplejson_run :
  let run := push_event (H:=Sample.simplejson_libs)
               (Sample.answers 200 "OK" "<p>down</p>")
               Sample.not_modified_queue in
  fst run = Returned /\
  log (snd run) =
    [ pushed_info 200;
      push_error (mk_exn (RequestException (JSONDecodeError false))
                    "Expecting value: line 1 column 1 (char 0)") ]
    ++ sentinel_info.
Proof. cbv zeta. split; vm_compute; reflexivity. Qed.

(** An empty frame: the encoder raises, the exception reaches the caller
    and nothing is enqueued. *)
Example empty_frame_not_enqueued :
  let run := accumulate_event 3 [] ["No_Helmet"] Sample.start in
  fst run = Raise (mk_exn Cv2Error "(-215:Assertion failed) !image.empty()") /\
  queue (snd run) = [].
Proof. by vm_compute. Qed.

(** On the disk that refuses the debug file the event is lost as well. *)
Example read_only_not_enqueued :
  let run := accumulate_event 3 Sample.frame ["No_Helmet"] Sample.read_only in
  fst run = Raise Sample.permission_denied /\ queue (snd run) = [].
Proof. by vm_compute. Qed.

(** The three kinds of body [parse_json_or_html] meets. *)
Example parse_json_body :
  fst (parse_json_or_html (mk_response 200 "OK" DASHBOARD_LINK "{}") Sample.start)
  = Ok (PyDict []).
Proof. reflexivity. Qed.

Example parse_titled_markup :
  fst (parse_json_or_html
         (mk_response 200 "OK" DASHBOARD_LINK "<title>Oops</title><p>down</p>")
         Sample.start)
  = Ok (PyDict [("html", PyDict [("title", PyStr "Oops");
                                 ("content", PyStr "<title>Oops</title><p>down</p>")])]).
Proof. reflexivity. Qed.

Example parse_untitled_markup :
  fst (parse_json_or_html (mk_response 200 "OK" DASHBOARD_LINK "<p>down</p>")
         Sample.start)
  = Ok (PyDict [("html", PyDict [("title", PyStr "No Title");
                                 ("content", PyStr "<p>down</p>")])]).
Proof. reflexivity. Qed.

(** A title element without a single string child: its [.string] is
    [None], and so is the title of the fallback. *)
Example parse_title_without_string :
  fst (parse_json_or_html (H:=Sample.untitled_libs)
         (mk_response 200 "OK" DASHBOARD_LINK "<title><b>Oops</b></title>")
         Sample.start)
  = Ok (PyDict [("html", PyDict [("title", PyNone);
                                 ("content", PyStr "<title><b>Oops</b></title>")])]).
Proof. reflexivity. Qed.

(** A status of 500 is logged as an error, and the worker goes on to the
    sentinel. *)
Example server_error_run :
  let run := push_event (Sample.answers 500 "Internal Server Error" "")
               Sample.not_modified_queue in
  fst run = Returned /\
  log (snd run) =
    push_error (mk_exn (RequestException HTTPError)
                  "500 Server Error: Internal Server Error for url: DASHBOARD_LINK")
    :: sentinel_info.
Proof. by vm_compute. Qed.

End Runs.


(** * Further properties *)

Section PictureProperties.
Context `{ImageLibs}.

(** ** prepare_image *)

(** With [live_stream] the frame is resized first; from there on the run is
    the run on the resized frame. *)
Lemma prepare_image_resized (frame small : Frame) (q : Z) (w : world) :
  cv2_resize frame (960, 540) = Ok small ->
  prepare_image frame true q w = prepare_image small false q w.
Proof.
  intros Hsmall. unfold prepare_image, prepare_image_body.
  unfold_py. simpl. by rewrite Hsmall.
Qed.

Lemma prepare_image_resize_error (frame : Frame) (q : Z) (w : world) (e : exn) :
  cv2_resize frame (960, 540) = Raise e ->
  prepare_image frame true q w = (Raise e, add_log [prepare_image_error e] w).
Proof.
  intros Hsmall. unfold prepare_image, prepare_image_body.
  unfold_py. simpl. by rewrite Hsmall.
Qed.

(** The ways a run without live stream can go: encoding fails, the debug
    file does not open, the write fails, or the string is returned. *)
Lemma prepare_image_view (frame : Frame) (q : Z) (w : world) :
  (exists e, encoding_error frame q = Some e /\
             prepare_image frame false q w =
               (Raise e, add_log [prepare_image_error e] w)) \/
  (exists img e, encodes frame q img /\
                 open_fault w debug_file = Some e /\
                 prepare_image frame false q w =
                   (Raise e,
                    add_log [ mk_log INFO [Lit "Image successfully encoded and validated as Base64."];
                              prepare_image_error e ] w)) \/
  (exists img e, encodes frame q img /\
                 open_fault w debug_file = None /\
                 write_fault w debug_file = Some e /\
                 prepare_image frame false q w =
                   (Raise e,
                    add_log [prepare_image_error e]
                      (set_files
                         (insert debug_file
                            (String.substring 0 (fault_offset w debug_file) img))
                         (add_log
                            (if fault_at_close w debug_file
                             then prepare_image_info
                             else [ mk_log INFO [Lit "Image successfully encoded and validated as Base64."] ])
                            w)))) \/
  (exists img, encodes frame q img /\
               open_fault w debug_file = None /\
               write_fault w debug_file = None /\
               prepare_image frame false q w =
                 (Ok img, set_files (insert debug_file img)
                            (add_log prepare_image_info w))).
Proof.
  destruct (encoding_error frame q) as [e|] eqn:Herr.
  { left. exists e. split; [done|]. by apply prepare_image_encoding_error. }
  apply encoding_error_None in Herr as [img Henc]. right.
  destruct (open_fault w debug_file) as [e|] eqn:Hopen.
  { left. exists img, e. repeat split; try done.
    by apply (prepare_image_open_fault _ _ _ img). }
  right. destruct (write_fault w debug_file) as [e|] eqn:Hwrite.
  { left. exists img, e. repeat split; try done.
    by apply (prepare_image_write_fault _ _ _ img). }
  right. exists img. repeat split; try done.
  by apply prepare_image_succeeds.
Qed.

(** The same for any value of [live_stream], as facts about the outcome
    and the final world. *)
Lemma prepare_image_outcome (frame : Frame) (live_stream : bool) (q : Z)
    (w w' : world) (r : result string) :
  prepare_image frame live_stream q w = (r, w') ->
  match r with
  | Ok img =>
      files w' = <[debug_file := img]> (files w) /\
      log w' = log w ++ prepare_image_info
  | Raise e =>
      (exists rs, log w' = log w ++ rs ++ [prepare_image_error e]) /\
      (files w' = files w \/
       (open_fault w debug_file = None /\ write_fault w debug_file = Some e /\
        exists frame' img,
          encoded_frame frame live_stream frame' /\
          encodes frame' q img /\
          files w' =
            <[debug_file := String.substring 0 (fault_offset w debug_file) img]>
              (files w)))
  end.
Proof.
  assert (Hfalse : forall frame' : Frame,
             encoded_frame frame live_stream frame' ->
             prepare_image frame' false q w = (r, w') ->
             match r with
             | Ok img =>
                 files w' = <[debug_file := img]> (files w) /\
                 log w' = log w ++ prepare_image_info
             | Raise e =>
                 (exists rs, log w' = log w ++ rs ++ [prepare_image_error e]) /\
                 (files w' = files w \/
                  (open_fault w debug_file = None /\
                   write_fault w debug_file = Some e /\
                   exists frame' img,
                     encoded_frame frame live_stream frame' /\
                     encodes frame' q img /\
                     files w' =
                       <[debug_file :=
                           String.substring 0 (fault_offset w debug_file) img]>
                         (files w)))
             end).
  { intros frame' Hframe Hrun.
    destruct (prepare_image_view frame' q w)
      as [(e & _ & Hv)|[(img & e & _ & _ & Hv)
         |[(img & e & Henc & Hopen & Hwrite & Hv)|(img & _ & _ & _ & Hv)]]];
      rewrite Hv in Hrun; injection Hrun as <- <-; simpl.
    - split; [by exists []|by left].
    - split; [|by left]. by eexists [_].
    - split; [|right; split; [done|split; [done|by exists frame', img]]].
      eexists. by rewrite <- app_assoc.
    - split; [|done]. unfold set_files. simpl. done. }
  destruct live_stream; [|by apply Hfalse].
  destruct (cv2_resize frame (960, 540)) as [small|e] eqn:Hsmall.
  - rewrite (prepare_image_resized _ _ _ _ Hsmall). by apply Hfalse.
  - rewrite (prepare_image_resize_error _ _ _ _ Hsmall).
    intros [= <- <-]. simpl. split; [by exists []|by left].
Qed.

(** X1: without live stream, [prepare_image] returns the string [img]
    exactly when the encoder reports success with a buffer whose Base64 text
    is [img], that text validates, and the debug file opens and takes the
    write. *)
Theorem prepare_image_returns_iff (frame : Frame) (q : Z) (w : world)
    (img : string) :
  (exists w', prepare_image frame false q w = (Ok img, w')) <->
  encodes frame q img /\
  open_fault w debug_file = None /\ write_fault w debug_file = None.
Proof.
  split.
  - intros [w' Hrun].
    destruct (prepare_image_Ok _ _ _ _ _ Hrun)
      as (buffer & decoded & Henc & Himg & Hdec & Hopen & Hwrite).
    split; [by exists buffer, decoded|done].
  - intros (Henc & Hopen & Hwrite). eexists.
    by apply prepare_image_succeeds.
Qed.

(** X2: a run that returns has replaced the content of
    [encoded_image.txt] by the returned string and touched no other file. *)
Theorem prepare_image_overwrites_debug_file (frame : Frame)
    (live_stream : bool) (q : Z) (w w' : world) (img : string) :
  prepare_image frame live_stream q w = (Ok img, w') ->
  files w' !! debug_file = Some img /\
  forall path, path <> debug_file -> files w' !! path = files w !! path.
Proof.
  intros Hrun. destruct (prepare_image_outcome _ _ _ _ _ _ Hrun) as [-> _].
  split; [apply lookup_insert_eq|].
  intros path Hpath. by apply lookup_insert_ne.
Qed.

(** X3: every exception that leaves [prepare_image] was logged first: the
    last record of the log is the error record of that exception. *)
Theorem prepare_image_failure_is_logged (frame : Frame) (live_stream : bool)
    (q : Z) (w w' : world) (e : exn) :
  prepare_image frame live_stream q w = (Raise e, w') ->
  exists rs, log w' = log w ++ rs ++ [prepare_image_error e].
Proof.
  intros Hrun. by destruct (prepare_image_outcome _ _ _ _ _ _ Hrun) as [? _].
Qed.

(** X4: a run that raises leaves every file but [encoded_image.txt] as it
    was.  It leaves [encoded_image.txt] as it was too, except when the
    write itself failed, in [file.write] or when the file was closed: then
    the older content is gone, and the file holds the part of the Base64
    text of the encoded frame that reached the disk before the failure. *)
Theorem prepare_image_failure_files (frame : Frame) (live_stream : bool)
    (q : Z) (w w' : world) (e : exn) :
  prepare_image frame live_stream q w = (Raise e, w') ->
  (forall path, path <> debug_file -> files w' !! path = files w !! path) /\
  (files w' = files w \/
   (open_fault w debug_file = None /\
    write_fault w debug_file = Some e /\
    exists frame' img,
      (if live_stream then cv2_resize frame (960, 540) = Ok frame'
       else frame' = frame) /\
      encodes frame' q img /\
      files w' !! debug_file =
        Some (String.substring 0 (fault_offset w debug_file) img))).
Proof.
  intros Hrun.
  destruct (prepare_image_outcome _ _ _ _ _ _ Hrun)
    as [_ [Hsame|(Hopen & Hwrite & frame' & img & Hframe & Henc & Hfiles)]].
  - split; [by rewrite Hsame|by left].
  - split.
    + intros path Hpath. rewrite Hfiles. by apply lookup_insert_ne.
    + right. split; [done|]. split; [done|]. exists frame', img.
      split; [done|]. split; [done|]. rewrite Hfiles. apply lookup_insert_eq.
Qed.

(** X5: with [live_stream] the returned string is the Base64 text of the
    frame resized to 960 by 540, and an exception of the resize is logged
    and raised like any other. *)
Theorem prepare_image_live_stream (frame : Frame) (q : Z) (w : world) :
  (forall img w',
     prepare_image frame true q w = (Ok img, w') ->
     exists small, cv2_resize frame (960, 540) = Ok small /\
                   encodes small q img) /\
  (forall e,
     cv2_resize frame (960, 540) = Raise e ->
     prepare_image frame true q w =
       (Raise e, add_log [prepare_image_error e] w)).
Proof.
  split.
  - intros img w' Hrun.
    destruct (cv2_resize frame (960, 540)) as [small|e] eqn:Hsmall.
    + rewrite (prepare_image_resized _ _ _ _ Hsmall) in Hrun.
      exists small. split; [done|].
      destruct (prepare_image_Ok _ _ _ _ _ Hrun)
        as (buffer & decoded & Henc & Himg & Hdec & _).
      by exists buffer, decoded.
    + by rewrite (prepare_image_resize_error _ _ _ _ Hsmall) in Hrun.
  - intros e. apply prepare_image_resize_error.
Qed.

End PictureProperties.

Section EventProperties.
Context `{ImageLibs}.

(** ** accumulate_event *)

(** The outcome of [prepare_image] depends on the frame and on the answers
    of the disk, not on the log or the queue. *)
Lemma prepare_image_result (frame : Frame) (q : Z) (w : world) :
  fst (prepare_image frame false q w) =
  picture_result frame q (open_fault w debug_file) (write_fault w debug_file).
Proof.
  unfold picture_result.
  destruct (prepare_image_view frame q w)
    as [(e & Herr & ->)|[(img & e & Henc & Hopen & ->)
       |[(img & e & Henc & Hopen & Hwrite & ->)
        |(img & Henc & Hopen & Hwrite & ->)]]]; simpl.
  - by rewrite Herr.
  - rewrite (proj2 (encoding_error_None frame q)) by eauto.
    destruct Henc as (buffer & decoded & -> & _). by rewrite Hopen.
  - rewrite (proj2 (encoding_error_None frame q)) by eauto.
    destruct Henc as (buffer & decoded & -> & _). by rewrite Hopen, Hwrite.
  - rewrite (proj2 (encoding_error_None frame q)) by eauto.
    destruct Henc as (buffer & decoded & -> & -> & _).
    by rewrite Hopen, Hwrite.
Qed.

Lemma py_max_Permutation (l l' : list Z) (d : Z) :
  l ≡ₚ l' -> py_max l d = py_max l' d.
Proof.
  intros Hperm. destruct l as [|x l].
  { by rewrite (Permutation_nil Hperm). }
  destruct l' as [|x' l'].
  { symmetry in Hperm. by apply Permutation_nil in Hperm. }
  assert (Hm : py_max (x :: l) d ∈ x :: l) by (by apply py_max_elem).
  assert (Hm' : py_max (x' :: l') d ∈ x' :: l') by (by apply py_max_elem).
  remember (py_max (x :: l) d) as m eqn:Em.
  remember (py_max (x' :: l') d) as m' eqn:Em'.
  rewrite Hperm in Hm. rewrite <- Hperm in Hm'.
  apply (py_max_upper _ d) in Hm. apply (py_max_upper _ d) in Hm'. lia.
Qed.

(** Two enumerations of the same labels give the same entries up to
    order. *)
Lemma recognised_Permutation (labels labels' : list string) :
  labels ≡ₚ labels' -> recognised labels ≡ₚ recognised labels'.
Proof. intros Hperm. unfold recognised. by rewrite Hperm. Qed.

(** The mapping sends distinct labels to distinct codes. *)
Lemma mapping_dict_inj (l l' : string) (code : Z) :
  detection_types_mapping_dict l = Some code ->
  detection_types_mapping_dict l' = Some code -> l = l'.
Proof.
  rewrite !mapping_dict_spec.
  intros [[-> ->]|[[-> ->]|[-> ->]]] [[-> ?]|[[-> ?]|[-> ?]]];
    done || lia.
Qed.

Lemma recognised_codes_NoDup (labels : list string) :
  NoDup labels -> NoDup (map Detection.type (recognised labels)).
Proof.
  rewrite recognised_types. induction 1 as [|l labels Hl Hnd IH]; simpl.
  { constructor. }
  destruct (detection_types_mapping_dict l) as [code|] eqn:Hc; [|done].
  constructor; [|done].
  intros (l' & Hl' & Hc')%list_elem_of_omap.
  by rewrite (mapping_dict_inj _ _ _ Hc Hc') in Hl.
Qed.

Lemma recognised_fixed (labels : list string) :
  Forall (fun d => d ∈ fixed_entries) (recognised labels).
Proof.
  apply Forall_forall. intros d Hd.
  apply elem_of_recognised in Hd as (l & code & _ & Hc & Hd). subst d.
  apply mapping_dict_spec in Hc as [[-> ->]|[[-> ->]|[-> ->]]];
    unfold fixed_entries, detection_entry; simpl;
    rewrite !elem_of_cons; auto.
Qed.

(** What a run of [prepare_image] adds to the log holds no warning. *)
Lemma prepare_image_log_levels (frame : Frame) (q : Z) (w w' : world)
    (r : result string) :
  prepare_image frame false q w = (r, w') ->
  exists rs, log w' = log w ++ rs /\
             Forall (fun rec => log_level rec <> WARNING) rs.
Proof.
  intros Hrun.
  destruct (prepare_image_view frame q w)
    as [(e & _ & Hv)|[(img & e & _ & _ & Hv)
       |[(img & e & _ & _ & _ & Hv)|(img & _ & _ & _ & Hv)]]];
    rewrite Hv in Hrun; injection Hrun as <- <-; simpl;
    try destruct (fault_at_close w debug_file); simpl;
    rewrite <- ?app_assoc; eexists; (split; [reflexivity|]);
    repeat constructor; done.
Qed.

(** The log of a run, whatever its outcome: the warnings of the skipped
    labels, then records that are no warnings. *)
Lemma accumulate_event_log `{SetIteration} (location_id : Z) (frame : Frame)
    (detection_types : list string) (w w' : world) (r : result unit) :
  accumulate_event location_id frame detection_types w = (r, w') ->
  exists rs,
    log w' = log w ++ skip_warnings (set_iter detection_types) ++ rs /\
    Forall (fun rec => log_level rec <> WARNING) rs.
Proof.
  rewrite accumulate_event_run.
  destruct (prepare_image _ _ _ _) as [[img|e] w2] eqn:Himg;
    destruct (prepare_image_log_levels _ _ _ _ _ Himg) as (rs & Hlog & Hrs);
    intros [= <- <-]; simpl; rewrite Hlog; simpl; rewrite <- !app_assoc.
  - eexists. split; [reflexivity|].
    apply Forall_app. split; [done|]. by repeat constructor.
  - by exists rs.
Qed.

Lemma skip_warnings_elem (labels : list string) (l : string) :
  skip_warning l ∈ skip_warnings labels -> l ∈ labels.
Proof.
  unfold skip_warnings. intros (l' & Hl' & Hw)%list_elem_of_omap.
  destruct (detection_types_mapping_dict l'); [done|].
  by injection Hw as ->.
Qed.

Lemma skip_warnings_once (labels : list string) (l : string) :
  NoDup labels -> l ∈ labels -> detection_types_mapping_dict l = None ->
  exists pre post,
    skip_warnings labels = pre ++ skip_warning l :: post /\
    (skip_warning l ∉ pre) /\ (skip_warning l ∉ post).
Proof.
  intros Hnd Hl Hc.
  apply list_elem_of_split in Hl as (l1 & l2 & ->).
  apply NoDup_app in Hnd as (_ & Hl1 & [Hl2 _]%NoDup_cons).
  exists (skip_warnings l1), (skip_warnings l2). split; [|split].
  - unfold skip_warnings. rewrite omap_app. simpl. by rewrite Hc.
  - intros Hin%skip_warnings_elem. eapply Hl1; [exact Hin|left].
  - by intros Hin%skip_warnings_elem.
Qed.

(** X6: whatever its outcome, [accumulate_event] issues no request, leaves
    the clock alone, only appends to the log, touches no file but
    [encoded_image.txt], and appends at most one item to the queue, which is
    never the sentinel. *)
Theorem accumulate_event_effects `{SetIteration} (location_id : Z)
    (frame : Frame) (detection_types : list string) (w w' : world)
    (r : result unit) :
  accumulate_event location_id frame detection_types w = (r, w') ->
  sent w' = sent w /\
  clock w' = clock w /\
  (log w) `prefix_of` (log w') /\
  (forall path, path <> debug_file -> files w' !! path = files w !! path) /\
  exists items, queue w' = queue w ++ items /\
                (length items <= 1)%nat /\ None ∉ items.
Proof.
  intros Hrun.
  destruct (accumulate_event_log _ _ _ _ _ _ Hrun) as (rs & Hlog & _).
  rewrite accumulate_event_run in Hrun.
  destruct (prepare_image _ _ _ _) as [[img|e] w2] eqn:Himg;
    destruct (prepare_image_frame _ _ _ _ _ _ Himg) as (Hq & Hs & Hc & _);
    pose proof (prepare_image_outcome _ _ _ _ _ _ Himg) as Hout;
    injection Hrun as <- <-; simpl in *.
  - split; [done|]. split; [done|]. split; [by eexists|]. split.
    + destruct Hout as [-> _]. intros path Hpath. by apply lookup_insert_ne.
    + eexists [_]. rewrite Hq. split; [done|]. split; [simpl; lia|].
      rewrite list_elem_of_singleton. done.
  - split; [done|]. split; [done|]. split; [by eexists|]. split.
    + destruct Hout as [_ [->|(_ & _ & frame' & img & _ & _ & ->)]]; [done|].
      intros path Hpath. by apply lookup_insert_ne.
    + exists []. rewrite app_nil_r. split; [done|]. split; [simpl; lia|].
      apply not_elem_of_nil.
Qed.

(** X7: the payload does not depend on the order in which the set of labels
    is iterated, nor on repetitions or the order of the labels given: two
    runs on lists with the same elements, under any two iteration orders,
    both return or both raise the same exception, and the payloads they
    enqueue agree in every field, the detections up to their order. *)
Theorem accumulate_event_order_independent (S1 S2 : SetIteration)
    (location_id : Z) (frame : Frame) (l1 l2 : list string) (w : world) :
  (forall x, x ∈ l1 <-> x ∈ l2) ->
  match accumulate_event (H0:=S1) location_id frame l1 w,
        accumulate_event (H0:=S2) location_id frame l2 w with
  | (Ok _, w1), (Ok _, w2) =>
      exists p1 p2,
        queue w1 = queue w ++ [Some p1] /\
        queue w2 = queue w ++ [Some p2] /\
        Payload.location_id p1 = Payload.location_id p2 /\
        Payload.date p1 = Payload.date p2 /\
        Payload.type p1 = Payload.type p2 /\
        Payload.image p1 = Payload.image p2 /\
        Payload.detections p1 ≡ₚ Payload.detections p2
  | (Raise e1, w1), (Raise e2, w2) =>
      e1 = e2 /\ queue w1 = queue w /\ queue w2 = queue w
  | _, _ => False
  end.
Proof.
  intros Hsame. rewrite !accumulate_event_run.
  assert (Hperm : set_iter (SetIteration:=S1) l1
                  ≡ₚ set_iter (SetIteration:=S2) l2).
  { apply NoDup_Permutation; [apply set_iter_NoDup..|].
    intros x. by rewrite !set_iter_elem. }
  pose proof (prepare_image_result frame 50
                (add_log (skip_warnings (set_iter (SetIteration:=S1) l1)) w))
    as Hr1.
  pose proof (prepare_image_result frame 50
                (add_log (skip_warnings (set_iter (SetIteration:=S2) l2)) w))
    as Hr2.
  simpl in Hr1, Hr2. rewrite <- Hr2 in Hr1. clear Hr2.
  destruct (prepare_image frame false 50
              (add_log (skip_warnings (set_iter (SetIteration:=S1) l1)) w))
    as [r1 wa] eqn:Hrun1.
  destruct (prepare_image frame false 50
              (add_log (skip_warnings (set_iter (SetIteration:=S2) l2)) w))
    as [r2 wb] eqn:Hrun2.
  destruct (prepare_image_frame _ _ _ _ _ _ Hrun1) as (Hq1 & _).
  destruct (prepare_image_frame _ _ _ _ _ _ Hrun2) as (Hq2 & _).
  simpl in Hr1. subst r2. destruct r1 as [img|e]; simpl.
  - eexists _, _. split; [by rewrite Hq1|]. split; [by rewrite Hq2|].
    simpl. repeat split; try done.
    + apply py_max_Permutation, fmap_Permutation.
      by apply recognised_Permutation.
    + by apply recognised_Permutation.
  - by rewrite Hq1, Hq2.
Qed.

(** X8: the detections of a built payload are among the three fixed
    entries, no two of them share a code, and so there are at most three. *)
Theorem accumulate_event_fixed_entries `{SetIteration} (location_id : Z)
    (frame : Frame) (detection_types : list string) (w w' : world) :
  accumulate_event location_id frame detection_types w = (Ok tt, w') ->
  exists p,
    queue w' = queue w ++ [Some p] /\
    Forall (fun d => d ∈ fixed_entries) (Payload.detections p) /\
    NoDup (map Detection.type (Payload.detections p)) /\
    (length (Payload.detections p) <= 3)%nat.
Proof.
  intros Hrun.
  destruct (accumulate_event_Ok _ _ _ _ _ Hrun) as (img & _ & Hq).
  eexists. split; [exact Hq|]. simpl.
  pose proof (recognised_fixed (set_iter detection_types)) as Hfixed.
  pose proof (recognised_codes_NoDup _ (set_iter_NoDup detection_types))
    as Hnd.
  split; [done|]. split; [done|].
  rewrite <- (length_map Detection.type).
  change 3%nat with (length [0; 1; 2]).
  apply submseteq_length, NoDup_submseteq; [done|].
  intros code (d & -> & Hd)%list_elem_of_fmap.
  apply (proj1 (Forall_forall _ _) Hfixed) in Hd.
  unfold fixed_entries in Hd. rewrite !elem_of_cons in Hd.
  rewrite !elem_of_cons.
  destruct Hd as [-> | [-> | [-> | Hd]]]; auto. inversion Hd.
Qed.

(** The dictionary comprehension drops the image and keeps the other
    items in their order. *)
Lemma queued_info_record (p : Payload.t) : queued_info p = queued_record p.
Proof. reflexivity. Qed.

(** X9: the record logged for a queued payload lists its location id, date,
    type and detections, and never its image; it is the last record of a
    run that returns. *)
Theorem accumulate_event_logs_no_image `{SetIteration} (location_id : Z)
    (frame : Frame) (detection_types : list string) (w w' : world) :
  accumulate_event location_id frame detection_types w = (Ok tt, w') ->
  exists p rs,
    queue w' = queue w ++ [Some p] /\
    log w' = log w ++ rs ++ [queued_record p].
Proof.
  rewrite accumulate_event_run.
  destruct (prepare_image _ _ _ _) as [[img|e] w2] eqn:Himg; [|done].
  destruct (prepare_image_frame _ _ _ _ _ _ Himg) as (Hq & _).
  destruct (prepare_image_log _ _ _ _ _ _ Himg) as (rs & Hlog).
  intros [= <-]. eexists _, (skip_warnings (set_iter detection_types) ++ rs).
  simpl. rewrite Hq, Hlog. simpl.
  split; [reflexivity|]. by rewrite <- !app_assoc, queued_info_record.
Qed.

(** X10: a label outside the mapping is warned about exactly once per run,
    however often the event repeats it, and also when the run then fails. *)
Theorem accumulate_event_warns_once `{SetIteration} (location_id : Z)
    (frame : Frame) (detection_types : list string) (w w' : world)
    (r : result unit) (l : string) :
  accumulate_event location_id frame detection_types w = (r, w') ->
  l ∈ detection_types ->
  detection_types_mapping_dict l = None ->
  exists pre post,
    log w' = log w ++ pre ++ skip_warning l :: post /\
    (skip_warning l ∉ pre) /\ (skip_warning l ∉ post).
Proof.
  intros Hrun Hl Hc.
  destruct (accumulate_event_log _ _ _ _ _ _ Hrun) as (rs & Hlog & Hrs).
  destruct (skip_warnings_once (set_iter detection_types) l)
    as (pre & post & Hsplit & Hpre & Hpost);
    [apply set_iter_NoDup|by apply set_iter_elem|done|].
  exists pre, (post ++ rs). rewrite Hlog, Hsplit.
  split; [by rewrite <- !app_assoc|]. split; [done|].
  rewrite elem_of_app. intros [Hin|Hin]; [done|].
  by apply (proj1 (Forall_forall _ _) Hrs) in Hin.
Qed.

End EventProperties.

Section WorkerFurther.
Context `{MarkupLibs}.

(** ** push_event *)




(** What no run changes, and in which direction the rest moves. *)
Lemma push_event_loop_frame (session : Session)
    (events : list (option Payload.t)) (w w' : world) (t : termination) :
  push_event_loop session events w = (t, w') ->
  files w' = files w /\ clock w' = clock w /\
  (log w) `prefix_of` (log w') /\ (sent w) `prefix_of` (sent w') /\
  (w' = w \/ (queue w') `suffix_of` events).
Proof.
  revert w. induction events as [|[p|] events IH]; intros w.
  - simpl. intros [= <- <-]. repeat split; try done. by left.
  - rewrite push_event_loop_payload. simpl.
    destruct (pass_end_of _) as [rs|e rs|].
    + intros Hrun. destruct (IH _ Hrun) as (Hf & Hc & Hl & Hs & Hq).
      split; [by rewrite Hf|]. split; [by rewrite Hc|].
      split; [|split].
      * etrans; [|exact Hl]. by eexists.
      * etrans; [|exact Hs]. by eexists.
      * right. destruct Hq as [->|Hq]; [|by apply suffix_cons_r].
        simpl. by apply suffix_cons_r.
    + intros [= <- <-]. simpl.
      split; [done|]. split; [done|]. split; [by eexists|].
      split; [by eexists|]. right. by apply suffix_cons_r.
    + intros [= <- <-]. simpl.
      split; [done|]. split; [done|]. split; [done|].
      split; [by eexists|]. right. by apply suffix_cons_r.
  - rewrite push_event_loop_sentinel. intros [= <- <-]. simpl.
    split; [done|]. split; [done|]. split; [by eexists|]. split; [done|].
    right. by apply suffix_cons_r.
Qed.



(** X13: a run writes no file and leaves the clock alone; it only appends to
    the log and to the requests sent, and it only takes items from the front
    of the queue: what is queued afterwards is a tail of what was queued
    before. *)
Theorem push_event_effects (session : Session) (w w' : world)
    (t : termination) :
  push_event session w = (t, w') ->
  files w' = files w /\ clock w' = clock w /\
  (log w) `prefix_of` (log w') /\ (sent w) `prefix_of` (sent w') /\
  (queue w') `suffix_of` (queue w).
Proof.
  unfold push_event. intros Hrun.
  destruct (push_event_loop_frame _ _ _ _ _ Hrun)
    as (Hf & Hc & Hl & Hs & Hq).
  repeat split; try done. by destruct Hq as [->|Hq].
Qed.


(** X15: every request of a run is a POST to the dashboard link with the
    bearer token and the JSON content type, and its body is a payload that
    was in the queue when the run began. *)
Theorem push_event_request_format (session : Session) (w w' : world)
    (t : termination) :
  push_event session w = (t, w') ->
  exists reqs,
    sent w' = sent w ++ reqs /\
    Forall (fun req =>
              req_method req = "POST" /\
              req_url req = "DASHBOARD_LINK" /\
              req_headers req = bearer_headers /\
              Some (req_json req) ∈ queue w) reqs.
Proof.
  unfold push_event. intros Hrun.
  destruct (push_event_loop_sent _ _ _ _ _ Hrun) as [k Hsent].
  eexists; split; [exact Hsent|].
  apply Forall_fmap, Forall_forall; intros p Hp; simpl.
  repeat split; try done.
  apply before_sentinel_elem.
  by apply (subseteq_take k (before_sentinel (queue w))).
Qed.

End WorkerFurther.

Section Pipeline.
Context `{ImageLibs} `{SetIteration} `{MarkupLibs}.

(** ** Producer and worker together *)



End Pipeline.

Section WorkerLog.
Context `{MarkupLibs}.

(** ** The error records of a run *)

(** A pass that goes back to the head of the loop logged one error record
    when it went through the handler of the loop, and none otherwise. *)
Lemma goes_errors (o : http_outcome) (rs : list log_record) :
  pass_end_of o = Goes rs ->
  length (filter (fun rec => is_error rec) rs) =
  if handled o then 1%nat else 0%nat.
Proof.
  unfold pass_end_of, handled. destruct o as [r|k msg|]; [| |done].
  - destruct ((400 <=? status_code r) && (status_code r <? 600)); simpl.
    { by intros [= <-]. }
    destruct (json_loads (text r)) as [v|e]; [by intros [= <-]|].
    destruct (isinstance_JSONDecodeError e); [by intros [= <-]|].
    destruct (isinstance_RequestException e); [by intros [= <-]|done].
  - by intros [= <-].
Qed.

Lemma push_event_loop_errors (session : Session) (ps : list Payload.t)
    (rest : list (option Payload.t)) (w w' : world) :
  push_event_loop session (map Some ps ++ None :: rest) w = (Returned, w') ->
  exists rs,
    log w' = log w ++ rs /\
    length (filter (fun rec => is_error rec) rs) =
    length (filter (fun o => handled o) (outcomes session (length (sent w)) ps)).
Proof.
  revert w. induction ps as [|p ps IH]; intros w.
  - cbn [map app]. rewrite push_event_loop_sentinel. intros [= <-].
    by exists sentinel_info.
  - simpl map. rewrite <- app_comm_cons, push_event_loop_payload. cbn zeta.
    destruct (pass_end_of _) as [rs0|e rs0|] eqn:Hend; [|done|done].
    intros Hrun. destruct (IH _ Hrun) as (rs & Hlog & Hcount).
    exists (rs0 ++ rs). split.
    + rewrite Hlog. simpl. by rewrite <- app_assoc.
    + rewrite filter_app, length_app, (goes_errors _ _ Hend), Hcount.
      simpl. rewrite length_app, Nat.add_1_r, filter_cons. simpl.
      by destruct (handled _).
Qed.

(** X17: a run that returns has logged exactly one error record for each
    pass that ended in the [except] clause of the loop, and none besides:
    the number of error records it adds to the log is the number of
    payloads in front of the sentinel whose submission failed, by an
    exception of [session.post] or a status from 400 to 599, or whose
    response made [response.json()] raise a [RequestException] that is no
    [json.JSONDecodeError]. *)
Theorem push_event_errors_counted (session : Session) (w w' : world)
    (ps : list Payload.t) (rest : list (option Payload.t)) :
  queue w = map Some ps ++ None :: rest ->
  push_event session w = (Returned, w') ->
  exists rs,
    log w' = log w ++ rs /\
    length (filter (fun rec => is_error rec) rs) =
    length (filter (fun o => handled o) (outcomes session (length (sent w)) ps)).
Proof.
  intros Hq. unfold push_event. rewrite Hq. apply push_event_loop_errors.
Qed.

End WorkerLog.

(** ** Runs on the concrete platform *)

Section FurtherRuns.
#[local] Existing Instances Sample.image_libs Sample.first_occurrence
  Sample.markup_libs.

(** The other iteration order lists the two detections the other way
    round. *)
Example reordered_event_payload :
  queue (snd Sample.reordered_event) =
    [Some (Payload.mk 1 "2024-05-17 08:30:00" 2
             [Detection.mk 0 "no gloves"; Detection.mk 2 "no helmet"]
             "iVBORw==")].
Proof. by vm_compute. Qed.

Lemma prepare_image_overwrites_debug_file_witness :
  Sample.live_picture = (Ok "iVBORw==", snd Sample.live_picture) /\
  files (snd Sample.live_picture) !! debug_file = Some "iVBORw==" /\
  forall path, path <> debug_file ->
               files (snd Sample.live_picture) !! path
               = files Sample.start !! path.
Proof.
  assert (Hrun : Sample.live_picture = (Ok "iVBORw==", snd Sample.live_picture))
    by (vm_compute; reflexivity).
  split; [exact Hrun|].
  exact (prepare_image_overwrites_debug_file (H:=Sample.image_libs)
           Sample.frame true 50 Sample.start _ _ Hrun).
Defined.

Lemma prepare_image_failure_is_logged_witness :
  Sample.denied_picture
    = (Raise Sample.permission_denied, snd Sample.denied_picture) /\
  exists rs,
    log (snd Sample.denied_picture)
    = log Sample.read_only ++ rs
      ++ [prepare_image_error Sample.permission_denied].
Proof.
  assert (Hrun : Sample.denied_picture
                 = (Raise Sample.permission_denied, snd Sample.denied_picture))
    by (vm_compute; reflexivity).
  split; [exact Hrun|].
  exact (prepare_image_failure_is_logged (H:=Sample.image_libs)
           Sample.frame false 50 Sample.read_only _ _ Hrun).
Defined.

Lemma prepare_image_failure_files_witness :
  Sample.unwritten_picture
    = (Raise Sample.no_space, snd Sample.unwritten_picture) /\
  (forall path, path <> debug_file ->
                files (snd Sample.unwritten_picture) !! path
                = files Sample.disk_full !! path) /\
  (files (snd Sample.unwritten_picture) = files Sample.disk_full \/
   (open_fault Sample.disk_full debug_file = None /\
    write_fault Sample.disk_full debug_file = Some Sample.no_space /\
    exists frame' img,
      frame' = Sample.frame /\
      encodes frame' 50 img /\
      files (snd Sample.unwritten_picture) !! debug_file =
        Some (String.substring 0 (fault_offset Sample.disk_full debug_file) img))).
Proof.
  assert (Hrun : Sample.unwritten_picture
                 = (Raise Sample.no_space, snd Sample.unwritten_picture))
    by (vm_compute; reflexivity).
  split; [exact Hrun|].
  exact (prepare_image_failure_files (H:=Sample.image_libs)
           Sample.frame false 50 Sample.disk_full _ _ Hrun).
Defined.

(** On that disk the older picture is gone and the first three characters
    of the new one are in the file; the success record of the write was not
    logged. *)
Example partial_write :
  files (snd Sample.unwritten_picture) !! "encoded_image.txt" = Some "iVB" /\
  log (snd Sample.unwritten_picture) =
    [ mk_log INFO [Lit "Image successfully encoded and validated as Base64."];
      prepare_image_error Sample.no_space ].
Proof. split; vm_compute; reflexivity. Qed.

(** When the failure surfaces at the close, the success record of the
    write is in the log, and [prepare_image] raises all the same. *)
Example failure_at_close :
  let run := prepare_image Sample.frame false 50 Sample.disk_full_at_close in
  fst run = Raise Sample.no_space /\
  files (snd run) !! "encoded_image.txt" = Some "" /\
  log (snd run) =
    [ mk_log INFO [Lit "Image successfully encoded and validated as Base64."];
      mk_log INFO [Lit "Encoded Base64 string written to 'encoded_image.txt'."];
      prepare_image_error Sample.no_space ].
Proof. cbv zeta. repeat split; vm_compute; reflexivity. Qed.

Lemma accumulate_event_effects_witness :
  Sample.helmet_event = (Ok tt, snd Sample.helmet_event) /\
  sent (snd Sample.helmet_event) = sent Sample.start /\
  clock (snd Sample.helmet_event) = clock Sample.start /\
  (log Sample.start) `prefix_of` (log (snd Sample.helmet_event)) /\
  (forall path, path <> debug_file ->
                files (snd Sample.helmet_event) !! path
                = files Sample.start !! path) /\
  exists items,
    queue (snd Sample.helmet_event) = queue Sample.start ++ items /\
    (length items <= 1)%nat /\ None ∉ items.
Proof.
  assert (Hrun : Sample.helmet_event = (Ok tt, snd Sample.helmet_event))
    by (vm_compute; reflexivity).
  split; [exact Hrun|].
  exact (accumulate_event_effects (H:=Sample.image_libs) 0 Sample.frame
           ["No_Helmet"; "No_Helmet"; "No_Gloves"; "Unknown_Thing"]
           Sample.start _ _ Hrun).
Defined.

Lemma accumulate_event_order_independent_witness :
  match Sample.helmet_event, Sample.reordered_event with
  | (Ok _, w1), (Ok _, w2) =>
      exists p1 p2,
        queue w1 = queue Sample.start ++ [Some p1] /\
        queue w2 = queue Sample.start ++ [Some p2] /\
        Payload.location_id p1 = Payload.location_id p2 /\
        Payload.date p1 = Payload.date p2 /\
        Payload.type p1 = Payload.type p2 /\
        Payload.image p1 = Payload.image p2 /\
        Payload.detections p1 ≡ₚ Payload.detections p2
  | (Raise e1, w1), (Raise e2, w2) =>
      e1 = e2 /\ queue w1 = queue Sample.start /\ queue w2 = queue Sample.start
  | _, _ => False
  end.
Proof.
  apply (accumulate_event_order_independent (H:=Sample.image_libs)
           Sample.first_occurrence Sample.last_first 0 Sample.frame
           ["No_Helmet"; "No_Helmet"; "No_Gloves"; "Unknown_Thing"]
           ["No_Helmet"; "Unknown_Thing"; "No_Gloves"] Sample.start).
  intros x. rewrite !elem_of_cons. tauto.
Defined.

Lemma accumulate_event_fixed_entries_witness :
  Sample.helmet_event = (Ok tt, snd Sample.helmet_event) /\
  exists p,
    queue (snd Sample.helmet_event) = queue Sample.start ++ [Some p] /\
    Forall (fun d => d ∈ fixed_entries) (Payload.detections p) /\
    NoDup (map Detection.type (Payload.detections p)) /\
    (length (Payload.detections p) <= 3)%nat.
Proof.
  assert (Hrun : Sample.helmet_event = (Ok tt, snd Sample.helmet_event))
    by (vm_compute; reflexivity).
  split; [exact Hrun|].
  exact (accumulate_event_fixed_entries (H:=Sample.image_libs) 0 Sample.frame
           ["No_Helmet"; "No_Helmet"; "No_Gloves"; "Unknown_Thing"]
           Sample.start _ Hrun).
Defined.

Lemma accumulate_event_logs_no_image_witness :
  Sample.helmet_event = (Ok tt, snd Sample.helmet_event) /\
  exists p rs,
    queue (snd Sample.helmet_event) = queue Sample.start ++ [Some p] /\
    log (snd Sample.helmet_event) = log Sample.start ++ rs ++ [queued_record p].
Proof.
  assert (Hrun : Sample.helmet_event = (Ok tt, snd Sample.helmet_event))
    by (vm_compute; reflexivity).
  split; [exact Hrun|].
  exact (accumulate_event_logs_no_image (H:=Sample.image_libs) 0 Sample.frame
           ["No_Helmet"; "No_Helmet"; "No_Gloves"; "Unknown_Thing"]
           Sample.start _ Hrun).
Defined.

Lemma accumulate_event_warns_once_witness :
  exists pre post,
    log (snd Sample.second_event)
    = log (snd Sample.helmet_event) ++ pre ++ skip_warning "no_helmet" :: post /\
    (skip_warning "no_helmet" ∉ pre) /\ (skip_warning "no_helmet" ∉ post).
Proof.
  apply (accumulate_event_warns_once (H:=Sample.image_libs) 9 Sample.frame
           ["No_Sleeves"; "no_helmet"] (snd Sample.helmet_event)
           (snd Sample.second_event) (Ok tt) "no_helmet").
  - vm_compute. reflexivity.
  - rewrite !elem_of_cons. auto.
  - reflexivity.
Defined.



Lemma push_event_effects_witness :
  let run := push_event Sample.flaky Sample.stop_queue in
  run = (Returned, snd run) /\
  files (snd run) = files Sample.stop_queue /\
  clock (snd run) = clock Sample.stop_queue /\
  (log Sample.stop_queue) `prefix_of` (log (snd run)) /\
  (sent Sample.stop_queue) `prefix_of` (sent (snd run)) /\
  (queue (snd run)) `suffix_of` (queue Sample.stop_queue).
Proof.
  assert (Hrun : push_event Sample.flaky Sample.stop_queue
                 = (Returned, snd (push_event Sample.flaky Sample.stop_queue)))
    by (vm_compute; reflexivity).
  split; [exact Hrun|].
  exact (push_event_effects Sample.flaky Sample.stop_queue _ _ Hrun).
Defined.


(** The other three ways the pass of an accepted response ends: the body
    is JSON; the decoder gives up; simplejson is importable and the body is
    not JSON. *)
Example accepted_json :
  let pass := push_event_iteration (Sample.answers 200 "OK" "{}")
                (Some (Sample.payload 1)) Sample.start in
  fst pass = Some (Ok Continue) /\ log (snd pass) = [pushed_info 200].
Proof. cbv zeta. split; vm_compute; reflexivity. Qed.

Example accepted_too_deep :
  let pass := push_event_iteration (Sample.answers 200 "OK" (Sample.nested 1000))
                (Some (Sample.payload 1)) Sample.start in
  fst pass =
    Some (Raise (mk_exn RecursionError
                   "maximum recursion depth exceeded while decoding a JSON array from a unicode string")) /\
  log (snd pass) = [pushed_info 200].
Proof. cbv zeta. split; vm_compute; reflexivity. Qed.

Example accepted_simplejson :
  let pass := push_event_iteration (H:=Sample.simplejson_libs)
                (Sample.answers 200 "OK" "<p>down</p>")
                (Some (Sample.payload 1)) Sample.start in
  fst pass = Some (Ok Continue) /\
  log (snd pass) =
    [ pushed_info 200;
      push_error (mk_exn (RequestException (JSONDecodeError false))
                    "Expecting value: line 1 column 1 (char 0)") ].
Proof. cbv zeta. split; vm_compute; reflexivity. Qed.

Lemma push_event_request_format_witness :
  let run := push_event Sample.flaky Sample.stop_queue in
  run = (Returned, snd run) /\
  exists reqs,
    sent (snd run) = sent Sample.stop_queue ++ reqs /\
    Forall (fun req =>
              req_method req = "POST" /\
              req_url req = "DASHBOARD_LINK" /\
              req_headers req = bearer_headers /\
              Some (req_json req) ∈ queue Sample.stop_queue) reqs.
Proof.
  assert (Hrun : push_event Sample.flaky Sample.stop_queue
                 = (Returned, snd (push_event Sample.flaky Sample.stop_queue)))
    by (vm_compute; reflexivity).
  split; [exact Hrun|].
  exact (push_event_request_format Sample.flaky Sample.stop_queue _ _ Hrun).
Defined.


Lemma push_event_errors_counted_witness :
  let run := push_event Sample.flaky Sample.stop_queue in
  run = (Returned, snd run) /\
  exists rs,
    log (snd run) = log Sample.stop_queue ++ rs /\
    length (filter (fun rec => is_error rec) rs) =
    length (filter (fun o => handled o)
              (outcomes Sample.flaky (length (sent Sample.stop_queue))
                 [Sample.payload 1; Sample.payload 2])).
Proof.
  assert (Hrun : push_event Sample.flaky Sample.stop_queue
                 = (Returned, snd (push_event Sample.flaky Sample.stop_queue)))
    by (vm_compute; reflexivity).
  split; [exact Hrun|].
  exact (push_event_errors_counted Sample.flaky Sample.stop_queue _
           [Sample.payload 1; Sample.payload 2] [Some (Sample.payload 3)]
           eq_refl Hrun).
Defined.

(** In that run the first of the two submissions failed. *)
Example one_failure :
  filter (fun o => handled o)
    (outcomes Sample.flaky 0 [Sample.payload 1; Sample.payload 2])
  = [Failed ConnectionError "Connection refused"].
Proof. reflexivity. Qed.

(** On the sample queue with a sentinel the run returns, and on the same
    queue cut before the sentinel it waits with the queue drained. *)
Example blocked_run :
  let run := push_event Sample.flaky
               (set_queue (fun _ => [Some (Sample.payload 1);
                                     Some (Sample.payload 2)]) Sample.start) in
  fst run = Blocked /\ queue (snd run) = [] /\
  map (fun req => Payload.location_id (req_json req)) (sent (snd run)) = [1; 2].
Proof. by vm_compute. Qed.

End FurtherRuns.
